(** * x402-cli: probe/pay orchestration and the wallet balance query

    A shallow embedding of [main.go] (the two-phase probe/pay run) and of
    the wallet file ([runWallet], [queryUSDCBalance], [atomicToHuman]).

    Conventions.
    - Go [string] and [[]byte] are both byte sequences: they are Rocq
      [string]s (sequences of 8-bit [ascii]).
    - Go [int] and [*big.Int] are [Z].
    - Everything the process does to the outside (standard streams, HTTP
      requests, signer construction, file writes) is an [event] appended to
      a trace; everything the outside answers comes from a [world] record.
      So does the answer of [encoding/json] to the question whether bytes
      are a JSON text, on which the printing of a result depends.
    - [os.Exit] ends a computation at once: the process monad [M] has an
      [Exit] outcome that later binds do not touch. *)

From Stdlib Require Import ZArith QArith Lia List Ascii String.
From stdpp Require Import base list strings gmap.

Local Open Scope string_scope.
Local Open Scope Z_scope.

(** ** Go strings *)

Definition nl : string := String (ascii_of_nat 10) EmptyString.

Definition len (s : string) : Z := Z.of_nat (String.length s).

(** [strings.Repeat(string(c), n)] *)
Fixpoint repeat_char (c : ascii) (n : nat) : string :=
  match n with
  | O => EmptyString
  | S n' => String c (repeat_char c n')
  end.

(** [fmt.Sprintf("%0*s", width, s)] for [width >= 0]: left padding with
    zeros up to [width] bytes.  A negative width is read by [fmt] as the
    [-] flag with the absolute width: left-justified, padded with spaces. *)
Definition Sprintf_0s (width : Z) (s : string) : string :=
  if width <? 0
  then s +:+ repeat_char " " (Z.to_nat (- width) - String.length s)
  else repeat_char "0" (Z.to_nat width - String.length s) +:+ s.

(** [fmt.Sprintf("%-18s", s)]: left-justified in [width] columns. *)
Definition Sprintf_left (width : nat) (s : string) : string :=
  s +:+ repeat_char " " (width - String.length s).

(** [strings.TrimRight(s, "0")] *)
Fixpoint TrimRight0 (s : string) : string :=
  match s with
  | EmptyString => EmptyString
  | String c s' =>
      match TrimRight0 s' with
      | EmptyString => if Ascii.eqb c "0" then EmptyString else String c EmptyString
      | t => String c t
      end
  end.

(** [s[:n]]: slicing past the end of a string is a run-time panic. *)
Definition slice_to (s : string) (n : nat) : option string :=
  if (n <=? String.length s)%nat then Some (substring 0 n s) else None.

(** [strings.TrimPrefix(s, p)] *)
Definition TrimPrefix (s p : string) : string :=
  if String.prefix p s
  then substring (String.length p) (String.length s - String.length p) s
  else s.

(** [strings.HasPrefix(s, p)] *)
Definition HasPrefix (s p : string) : bool := String.prefix p s.

Definition lower_ascii (c : ascii) : ascii :=
  let n := N_of_ascii c in
  if ((65 <=? n) && (n <=? 90))%N then ascii_of_N (n + 32) else c.

(** [strings.ToLower] as the program needs it: the letters of ASCII are
    mapped, every other byte is kept.  It is applied to wallet addresses
    (ASCII) and to the answer at the prompt, of which only the first byte of
    the result is looked at: no character outside ASCII has y as its lower
    case. *)
Fixpoint ToLower (s : string) : string :=
  match s with
  | EmptyString => EmptyString
  | String c s' => String (lower_ascii c) (ToLower s')
  end.

Definition is_space (c : ascii) : bool :=
  let n := N_of_ascii c in
  ((n =? 32) || ((9 <=? n) && (n <=? 13)))%N.

(** The white space of [unicode.IsSpace] outside ASCII, in UTF-8: U+0085
    and U+00A0 in two bytes; U+1680, U+2000 to U+200A, U+2028, U+2029,
    U+202F, U+205F and U+3000 in three. *)
Definition space2 (a b : ascii) : bool :=
  let x := N_of_ascii a in
  let y := N_of_ascii b in
  ((x =? 194) && ((y =? 133) || (y =? 160)))%N.

Definition space3 (a b c : ascii) : bool :=
  let x := N_of_ascii a in
  let y := N_of_ascii b in
  let z := N_of_ascii c in
  (((x =? 225) && (y =? 154) && (z =? 128))
   || ((x =? 226) && (y =? 128)
       && (((128 <=? z) && (z <=? 138)) || (z =? 168) || (z =? 169) || (z =? 175)))
   || ((x =? 226) && (y =? 129) && (z =? 159))
   || ((x =? 227) && (y =? 128) && (z =? 128)))%N.

(** The string is one white-space character, of one, two or three bytes. *)
Definition is_space_rune (s : string) : bool :=
  match s with
  | String a EmptyString => is_space a
  | String a (String b EmptyString) => space2 a b
  | String a (String b (String c EmptyString)) => space3 a b c
  | _ => false
  end.

(** [strings.TrimLeftFunc(s, unicode.IsSpace)]: the characters are decoded
    from the left; a byte sequence that is no well-formed character is no
    white space. *)
Fixpoint TrimLeftSpace (s : string) : string :=
  match s with
  | EmptyString => EmptyString
  | String a s1 =>
      if is_space a then TrimLeftSpace s1
      else
        match s1 with
        | EmptyString => s
        | String b s2 =>
            if space2 a b then TrimLeftSpace s2
            else
              match s2 with
              | EmptyString => s
              | String c s3 => if space3 a b c then TrimLeftSpace s3 else s
              end
        end
  end.

(** [strings.TrimRightFunc(s, unicode.IsSpace)]: the characters are
    decoded from the right.  Once the rest is trimmed, the first byte goes
    only when it is, with what is left, one white-space character. *)
Fixpoint TrimRightSpace (s : string) : string :=
  match s with
  | EmptyString => EmptyString
  | String c s' =>
      let t := TrimRightSpace s' in
      if is_space_rune (String c t) then EmptyString else String c t
  end.

(** [strings.TrimSpace]: the white space of Unicode, at both ends. *)
Definition TrimSpace (s : string) : string := TrimRightSpace (TrimLeftSpace s).

(** [truncate] of main.go *)
Definition truncate (s : string) (n : Z) : string :=
  if len s <=? n then s else substring 0 (Z.to_nat n) s.

(** ** [math/big] *)

Definition digit_char (d : Z) : ascii := ascii_of_N (48 + Z.to_N d).

Definition digit_val (c : ascii) : option Z :=
  let n := Z.of_N (N_of_ascii c) in
  if (48 <=? n) && (n <=? 57) then Some (n - 48) else None.

(** Decimal digits of a non-negative number, most significant first.  The
    fuel is the number of binary digits, which bounds the decimal ones. *)
Fixpoint utoa_aux (fuel : nat) (n : Z) (acc : string) : string :=
  let acc' := String (digit_char (n mod 10)) acc in
  match fuel with
  | O => acc'
  | S fuel' => if n <? 10 then acc' else utoa_aux fuel' (n / 10) acc'
  end.

Definition utoa (n : Z) : string :=
  utoa_aux (Z.to_nat (Z.log2 n)) n EmptyString.

(** [big.Int.String()], also [strconv.Itoa] and the verb [%d]. *)
Definition big_String (z : Z) : string :=
  if z <? 0 then String "-" (utoa (- z)) else utoa z.

Fixpoint scan_digits (s : string) (acc : Z) : option Z :=
  match s with
  | EmptyString => Some acc
  | String c s' =>
      match digit_val c with
      | Some d => scan_digits s' (10 * acc + d)
      | None => None
      end
  end.

Definition scan_unsigned (s : string) : option Z :=
  match s with
  | EmptyString => None
  | _ => scan_digits s 0
  end.

(** [big.Int.SetString(s, 10)]: an optional sign and one or more
    decimal digits; [None] is the [ok = false] return. *)
Definition SetString (s : string) : option Z :=
  match s with
  | String "-" s' => Z.opp <$> scan_unsigned s'
  | String "+" s' => scan_unsigned s'
  | _ => scan_unsigned s
  end.

(** [new(big.Int).Exp(x, y, nil)]: [x**y], and 1 when [y <= 0]. *)
Definition big_Exp (x y : Z) : Z := if y <=? 0 then 1 else x ^ y.

(** [big.Int.Mod] and [big.Int.Div]: Euclidean modulus and division
    (the modulus is never negative). *)
Definition big_Mod (x y : Z) : Z := x mod (Z.abs y).
Definition big_Div (x y : Z) : Z := (x - big_Mod x y) / y.

(** [new(big.Int).SetBytes(b)]: [b] read as a big-endian unsigned number. *)
Fixpoint SetBytes_acc (b : string) (acc : Z) : Z :=
  match b with
  | EmptyString => acc
  | String c b' => SetBytes_acc b' (256 * acc + Z.of_N (N_of_ascii c))
  end.

Definition SetBytes (b : string) : Z := SetBytes_acc b 0.

(** ** Outcomes of a Go call that may panic *)

Inductive go (A : Type) : Type :=
| Ok (a : A)
| Panic (msg : string)
| Undefined.
Arguments Ok {A} a.
Arguments Panic {A} msg.
Arguments Undefined {A}.

(** ** Amount codec: [atomicToHuman]

    [bal.SetString(raw, 10)] is called without a look at its result; for a
    [raw] it rejects, math/big leaves the value of [bal] undefined and so
    is the string returned here. *)
Definition atomicToHuman (raw : string) (decimals : Z) : go string :=
  match SetString raw with
  | None => Undefined
  | Some bal =>
      let divisor := big_Exp 10 decimals in
      let whole := big_Div bal divisor in
      let frac := big_Mod bal divisor in
      if frac =? 0 then Ok (big_String whole +:+ ".000000")
      else
        let fracStr := Sprintf_0s decimals (big_String frac) in
        let trimmed := TrimRight0 fracStr in
        if len trimmed <? 2 then
          match slice_to fracStr 2 with
          | Some t => Ok (big_String whole +:+ "." +:+ t)
          | None => Panic "slice bounds out of range"
          end
        else Ok (big_String whole +:+ "." +:+ trimmed)
  end.

(** The conversion as the specification words it: the remainder, padded
    with zeros to [decimals] digits, trimmed of trailing zeros, but kept at
    two digits at least. *)
Definition keep_two (padded : string) : string :=
  let trimmed := TrimRight0 padded in
  if len trimmed <? 2 then substring 0 2 padded else trimmed.

Definition spec_fraction (decimals : Z) (frac : Z) : string :=
  keep_two (Sprintf_0s decimals (big_String frac)).

Definition spec_toHuman (A : Z) (D : Z) : string :=
  big_String (A / 10 ^ D) +:+ "." +:+ spec_fraction D (A mod 10 ^ D).

(** Reading a decimal numeral [w.f] back as a rational number. *)
Fixpoint split_dot (s : string) : option (string * string) :=
  match s with
  | EmptyString => None
  | String c s' =>
      if Ascii.eqb c "."
      then Some (EmptyString, s')
      else match split_dot s' with
           | Some (w, f) => Some (String c w, f)
           | None => None
           end
  end.

Definition parse_decimal (s : string) : option Q :=
  '(w, f) ← split_dot s;
  wv ← scan_unsigned w;
  fv ← scan_unsigned f;
  Some (inject_Z wv + inject_Z fv / inject_Z (10 ^ len f))%Q.

(** ** [encoding/hex] and [encoding/base64] *)

Definition hex_val (c : ascii) : option Z :=
  let n := Z.of_N (N_of_ascii c) in
  if (48 <=? n) && (n <=? 57) then Some (n - 48)
  else if (97 <=? n) && (n <=? 102) then Some (n - 87)
  else if (65 <=? n) && (n <=? 70) then Some (n - 55)
  else None.

Definition byte_of_Z (z : Z) : ascii := ascii_of_N (Z.to_N (z mod 256)).

(** [hex.DecodeString]: two hex digits a byte; [None] is the error return
    (a byte that is no hex digit, or an odd length). *)
Fixpoint hex_DecodeString (s : string) : option string :=
  match s with
  | EmptyString => Some EmptyString
  | String _ EmptyString => None
  | String a (String b s') =>
      hi ← hex_val a;
      lo ← hex_val b;
      rest ← hex_DecodeString s';
      Some (String (byte_of_Z (16 * hi + lo)) rest)
  end.

Definition b64_val (c : ascii) : option Z :=
  let n := Z.of_N (N_of_ascii c) in
  if (65 <=? n) && (n <=? 90) then Some (n - 65)
  else if (97 <=? n) && (n <=? 122) then Some (n - 71)
  else if (48 <=? n) && (n <=? 57) then Some (n + 4)
  else if n =? 43 then Some 62
  else if n =? 47 then Some 63
  else None.

Definition is_crlf (c : ascii) : bool :=
  let n := N_of_ascii c in ((n =? 10) || (n =? 13))%N.

Fixpoint drop_crlf (s : string) : string :=
  match s with
  | EmptyString => EmptyString
  | String c s' => if is_crlf c then drop_crlf s' else String c (drop_crlf s')
  end.

Definition is_pad (c : ascii) : bool := Ascii.eqb c "=".

Definition is_empty (s : string) : bool :=
  match s with EmptyString => true | _ => false end.

(** The quanta of four characters of padded base64: three bytes each, the
    last one one or two bytes when it ends in padding, nothing after it. *)
Fixpoint b64_quanta (s : string) : option string :=
  match s with
  | EmptyString => Some EmptyString
  | String a (String b (String c (String d rest))) =>
      va ← b64_val a;
      vb ← b64_val b;
      match b64_val c, b64_val d with
      | Some vc, Some vd =>
          let v := va * 262144 + vb * 4096 + vc * 64 + vd in
          rest' ← b64_quanta rest;
          Some (String (byte_of_Z (v / 65536))
                 (String (byte_of_Z (v / 256))
                   (String (byte_of_Z v) rest')))
      | Some vc, None =>
          let v := va * 262144 + vb * 4096 + vc * 64 in
          if is_pad d && is_empty rest
          then Some (String (byte_of_Z (v / 65536))
                      (String (byte_of_Z (v / 256)) EmptyString))
          else None
      | None, _ =>
          let v := va * 262144 + vb * 4096 in
          if is_pad c && is_pad d && is_empty rest
          then Some (String (byte_of_Z (v / 65536)) EmptyString)
          else None
      end
  | _ => None
  end.

(** [base64.StdEncoding.DecodeString]: the standard alphabet with [=]
    padding; carriage returns and line feeds in the input are skipped;
    [None] is the error return. *)
Definition base64_DecodeString (s : string) : option string :=
  b64_quanta (drop_crlf s).

(** ** [encoding/json]: valid JSON texts

    The grammar the scanner of [encoding/json] accepts, nesting bounded by
    10000 as there.  The sample worlds answer with it where the program
    asks whether bytes are JSON. *)

Definition is_json_space (c : ascii) : bool :=
  let n := N_of_ascii c in
  ((n =? 32) || (n =? 9) || (n =? 13) || (n =? 10))%N.

Fixpoint json_skip (s : string) : string :=
  match s with
  | EmptyString => EmptyString
  | String c s' => if is_json_space c then json_skip s' else s
  end.

Definition is_digit (c : ascii) : bool :=
  let n := N_of_ascii c in ((48 <=? n) && (n <=? 57))%N.

Definition is_hex_digit (c : ascii) : bool :=
  match hex_val c with Some _ => true | None => false end.

Fixpoint json_digits (s : string) : string :=
  match s with
  | EmptyString => EmptyString
  | String c s' => if is_digit c then json_digits s' else s
  end.

Definition json_digits1 (s : string) : option string :=
  match s with
  | EmptyString => None
  | String c s' => if is_digit c then Some (json_digits s') else None
  end.

Definition json_exp (s : string) : option string :=
  match s with
  | EmptyString => Some s
  | String c s' =>
      if Ascii.eqb c "e" || Ascii.eqb c "E" then
        match s' with
        | EmptyString => None
        | String d s'' =>
            if Ascii.eqb d "+" || Ascii.eqb d "-" then json_digits1 s''
            else json_digits1 s'
        end
      else Some s
  end.

Definition json_frac (s : string) : option string :=
  match s with
  | EmptyString => Some s
  | String c s' =>
      if Ascii.eqb c "." then r ← json_digits1 s'; json_exp r else json_exp s
  end.

Definition json_int (s : string) : option string :=
  match s with
  | EmptyString => None
  | String c s' =>
      if Ascii.eqb c "0" then json_frac s'
      else if is_digit c then json_frac (json_digits s')
      else None
  end.

Definition json_number (s : string) : option string :=
  match s with
  | EmptyString => None
  | String c s' => if Ascii.eqb c "-" then json_int s' else json_int s
  end.

(** The rest of a string literal after its opening quote (byte 34). *)
Fixpoint json_string (s : string) : option string :=
  match s with
  | EmptyString => None
  | String c s' =>
      if (N_of_ascii c =? 34)%N then Some s'
      else if Ascii.eqb c "\" then
        match s' with
        | EmptyString => None
        | String e s'' =>
            if (N_of_ascii e =? 34)%N || Ascii.eqb e "\" || Ascii.eqb e "/"
               || Ascii.eqb e "b" || Ascii.eqb e "f" || Ascii.eqb e "n"
               || Ascii.eqb e "r" || Ascii.eqb e "t"
            then json_string s''
            else if Ascii.eqb e "u" then
              match s'' with
              | String h1 (String h2 (String h3 (String h4 s5))) =>
                  if is_hex_digit h1 && is_hex_digit h2 && is_hex_digit h3
                     && is_hex_digit h4
                  then json_string s5 else None
              | _ => None
              end
            else None
        end
      else if (N_of_ascii c <? 32)%N then None
      else json_string s'
  end.

Definition json_literal (s : string) : option string :=
  match s with
  | String "t" (String "r" (String "u" (String "e" r))) => Some r
  | String "f" (String "a" (String "l" (String "s" (String "e" r)))) => Some r
  | String "n" (String "u" (String "l" (String "l" r))) => Some r
  | _ => None
  end.

Fixpoint json_value (fuel : nat) (depth : N) (s : string) {struct fuel}
  : option string :=
  match fuel with
  | O => None
  | S fuel' =>
      match json_skip s with
      | EmptyString => None
      | String c r =>
          if Ascii.eqb c "{" then
            if (depth <? 10000)%N then
              match json_skip r with
              | String "}" r' => Some r'
              | _ => json_members fuel' (N.succ depth) r
              end
            else None
          else if Ascii.eqb c "[" then
            if (depth <? 10000)%N then
              match json_skip r with
              | String "]" r' => Some r'
              | _ => json_elements fuel' (N.succ depth) r
              end
            else None
          else if (N_of_ascii c =? 34)%N then json_string r
          else if Ascii.eqb c "t" || Ascii.eqb c "f" || Ascii.eqb c "n"
          then json_literal (String c r)
          else json_number (String c r)
      end
  end
with json_members (fuel : nat) (depth : N) (s : string) {struct fuel}
  : option string :=
  match fuel with
  | O => None
  | S fuel' =>
      match json_skip s with
      | EmptyString => None
      | String c r =>
          if (N_of_ascii c =? 34)%N then
            match json_string r with
            | None => None
            | Some r1 =>
                match json_skip r1 with
                | String ":" r2 =>
                    match json_value fuel' depth r2 with
                    | None => None
                    | Some r3 =>
                        match json_skip r3 with
                        | String "," r4 => json_members fuel' depth r4
                        | String "}" r4 => Some r4
                        | _ => None
                        end
                    end
                | _ => None
                end
            end
          else None
      end
  end
with json_elements (fuel : nat) (depth : N) (s : string) {struct fuel}
  : option string :=
  match fuel with
  | O => None
  | S fuel' =>
      match json_value fuel' depth s with
      | None => None
      | Some r =>
          match json_skip r with
          | String "," r' => json_elements fuel' depth r'
          | String "]" r' => Some r'
          | _ => None
          end
      end
  end.

(** One JSON value, white space around it allowed, nothing else. *)
Definition json_text (s : string) : bool :=
  match json_value (2 * String.length s + 2) 0 s with
  | Some r => is_empty (json_skip r)
  | None => false
  end.

(** ** Data model of main.go *)

Definition ExitSuccess : Z := 0.
Definition ExitError : Z := 1.
Definition ExitPaymentRejected : Z := 2.
Definition ExitFreeRoute : Z := 3.

Definition StatusOK : Z := 200.
Definition StatusPaymentRequired : Z := 402.

(** [json.RawMessage] is a byte slice; a nil pointer is [None]. *)
Record probeResult := {
  ProbeStatusCode : Z;
  PaymentRequired : bool;
  PaymentRequirements : option string;
  ProbeBody : string
}.

Record payResult := {
  PayStatusCode : Z;
  Accepted : bool;
  Signer : string;
  PaymentResponse : option string;
  PayBody : string
}.

Record jsonResult := {
  Version : string;
  Endpoint : string;
  Method : string;
  Status : string;
  Probe : option probeResult;
  Payment : option payResult;
  Error : string
}.

Definition jsonResult_zero : jsonResult :=
  {| Version := EmptyString; Endpoint := EmptyString; Method := EmptyString;
     Status := EmptyString; Probe := None; Payment := None;
     Error := EmptyString |}.

Definition set_Status (v : string) (r : jsonResult) : jsonResult :=
  {| Version := Version r; Endpoint := Endpoint r; Method := Method r;
     Status := v; Probe := Probe r; Payment := Payment r; Error := Error r |}.

Definition set_Error (v : string) (r : jsonResult) : jsonResult :=
  {| Version := Version r; Endpoint := Endpoint r; Method := Method r;
     Status := Status r; Probe := Probe r; Payment := Payment r; Error := v |}.

Definition set_Probe (v : probeResult) (r : jsonResult) : jsonResult :=
  {| Version := Version r; Endpoint := Endpoint r; Method := Method r;
     Status := Status r; Probe := Some v; Payment := Payment r;
     Error := Error r |}.

Definition set_Payment (v : payResult) (r : jsonResult) : jsonResult :=
  {| Version := Version r; Endpoint := Endpoint r; Method := Method r;
     Status := Status r; Probe := Probe r; Payment := Some v;
     Error := Error r |}.

Definition set_PaymentRequirements (raw : string) (p : probeResult) : probeResult :=
  {| ProbeStatusCode := ProbeStatusCode p; PaymentRequired := PaymentRequired p;
     PaymentRequirements := Some raw; ProbeBody := ProbeBody p |}.

Definition set_ProbeBody (b : string) (p : probeResult) : probeResult :=
  {| ProbeStatusCode := ProbeStatusCode p; PaymentRequired := PaymentRequired p;
     PaymentRequirements := PaymentRequirements p; ProbeBody := b |}.

Definition set_PaymentResponse (raw : string) (p : payResult) : payResult :=
  {| PayStatusCode := PayStatusCode p; Accepted := Accepted p; Signer := Signer p;
     PaymentResponse := Some raw; PayBody := PayBody p |}.

(** The command line of the URL mode after [flag.Parse]; [endpoint] is
    [flag.Arg(0)]. *)
Record flags := {
  insecure : bool;
  timeout : Z;
  method : string;
  showVer : bool;
  skipVerify : bool;
  data : string;
  verbose : bool;
  dryRun : bool;
  jsonOutput : bool;
  autoYes : bool;
  quiet : bool;
  outputFile : string;
  headers : list string;
  endpoint : string
}.

(** ** Data model of the wallet file *)

Record networkInfo := {
  ChainID : string;
  RPCURL : string;
  USDCContract : string;
  Decimals : Z;
  Name : string
}.

Definition networks : gmap string networkInfo :=
  list_to_map
    [ ("base",
       {| ChainID := "eip155:8453";
          RPCURL := "https://mainnet.base.org";
          USDCContract := "0x833589fCD6eDb6E08f4c7C32D4f71b54bdA02913";
          Decimals := 6;
          Name := "Base" |});
      ("base-sepolia",
       {| ChainID := "eip155:84532";
          RPCURL := "https://sepolia.base.org";
          USDCContract := "0x036CbD53842c5426634e7929541eC2318f3dCF7e";
          Decimals := 6;
          Name := "Base Sepolia" |});
      ("avalanche",
       {| ChainID := "eip155:43114";
          RPCURL := "https://api.avax.network/ext/bc/C/rpc";
          USDCContract := "0xB97EF9Ef8734C71904D8002F8b6Bc66Dd9c48a6E";
          Decimals := 6;
          Name := "Avalanche" |});
      ("avalanche-fuji",
       {| ChainID := "eip155:43113";
          RPCURL := "https://api.avax-test.network/ext/bc/C/rpc";
          USDCContract := "0x5425890298aed601595a70AB815c96711a31Bc65";
          Decimals := 6;
          Name := "Avalanche Fuji" |}) ].

Record balanceEntry := {
  EntryNetwork : string;
  EntryChainID : string;
  Asset : string;
  Balance : string;
  EntryDecimals : Z;
  Raw : string
}.

Record walletResult := {
  Address : string;
  Balances : list balanceEntry;
  WalletError : string
}.

Definition walletResult_zero : walletResult :=
  {| Address := EmptyString; Balances := []; WalletError := EmptyString |}.

Definition set_WalletError (v : string) (r : walletResult) : walletResult :=
  {| Address := Address r; Balances := Balances r; WalletError := v |}.

(** [result.Balances = append(result.Balances, entry)] *)
Definition append_Balance (e : balanceEntry) (r : walletResult) : walletResult :=
  {| Address := Address r; Balances := Balances r ++ [e];
     WalletError := WalletError r |}.

(** ** The outside world *)

(** What the program reads of an HTTP response. *)
Record response := {
  RespStatusCode : Z;
  Header_Get : string -> string;
  RespBody : string
}.

(** The JSON-RPC answer as [queryUSDCBalance] sees it: the POST failed,
    the body did not unmarshal, or the envelope with its [result] string
    and the [message] of its [error] object when there is one. *)
Inductive rpcReply :=
| PostFailed (err : string)
| InvalidJSON
| Envelope (result : string) (error : option string).

Record world := {
  version : string;
  EVM_PRIVATE_KEY : string;
  (* http.NewRequest: its error for a method and URL *)
  NewRequest : string -> string -> option string;
  (* plainClient.Do: a transport error or the response *)
  plainClient_Do : string -> string -> string -> list string -> string + response;
  (* scanner.Scan and scanner.Text on standard input *)
  stdin_line : option string;
  (* evmsigners.NewClientSignerFromPrivateKey: an error or the address *)
  NewClientSignerFromPrivateKey : string -> string + string;
  (* httpClient.Do of the payment-wrapped client *)
  httpClient_Do : string -> string -> string -> list string -> string + response;
  (* os.WriteFile: its error *)
  WriteFile : string -> string -> option string;
  (* client.Post of the eth_call envelope to an RPC URL, for a contract
     and call data *)
  rpc_Post : string -> string -> string -> rpcReply;
  (* the order in which a range statement visits a map *)
  range : gmap string networkInfo -> list (string * networkInfo);
  (* encoding/json: the bytes are a valid JSON text, which is what
     json.MarshalIndent asks of the bytes of a json.RawMessage *)
  json_Valid : string -> bool
}.

(** Go leaves the iteration order of a map open; all it promises is that
    every entry is visited once. *)
Definition range_visits_all (w : world) : Prop :=
  forall m, range w m ≡ₚ map_to_list m.

Inductive event :=
| Stdout (s : string)
| Stderr (s : string)
| EmitJSON (r : jsonResult)            (* exitJSON: the result, marshalled, printed *)
| EmitWalletJSON (r : walletResult)    (* json.MarshalIndent(result) printed *)
| EmitVersionJSON (v : string)
| DumpRequest (method url : string)
| DumpResponse (code : Z) (body : string)
| PrintDecoded (name decoded : string) (* the indented JSON of a header *)
| PaymentSummary (body : string)       (* the fields printPaymentSummary finds *)
| PlainDo (method url data : string) (hdrs : list string)
| PaymentDo (method url data : string) (hdrs : list string)
| ReadStdin
| NewSigner (key : string)
| FileWrite (path body : string)
| RpcPost (url contract calldata : string).

(** ** The process monad: local result, trace, and [os.Exit] *)

Section Process.
Context {R : Type}.

Record pstate := { locals : R; trace : list event }.

Inductive outcome (A : Type) :=
| Ret (a : A) (s : pstate)
| Exit (code : Z) (s : pstate).

Definition M (A : Type) : Type := pstate -> outcome A.

Definition ret {A} (a : A) : M A := fun s => Ret A a s.

Definition bind {A B} (m : M A) (k : A -> M B) : M B :=
  fun s => match m s with
           | Ret _ a s' => k a s'
           | Exit _ code s' => Exit B code s'
           end.

Definition emit (e : event) : M unit :=
  fun s => Ret unit tt {| locals := locals s; trace := trace s ++ [e] |}.

Definition get : M R := fun s => Ret R (locals s) s.

Definition update (f : R -> R) : M unit :=
  fun s => Ret unit tt {| locals := f (locals s); trace := trace s |}.

Definition os_Exit {A} (code : Z) : M A := fun s => Exit A code s.

Definition when (b : bool) (m : M unit) : M unit :=
  if b then m else ret tt.

(** The exit code of the process: a [main] that returns ends with 0. *)
Definition exit_code {A} (o : outcome A) : Z :=
  match o with
  | Ret _ _ _ => 0
  | Exit _ code _ => code
  end.

Definition final {A} (o : outcome A) : pstate :=
  match o with
  | Ret _ _ s => s
  | Exit _ _ s => s
  end.
End Process.
Arguments pstate R : clear implicits.
Arguments outcome R A : clear implicits.
Arguments M R A : clear implicits.
Arguments Ret {R A} a s.
Arguments Exit {R A} code s.

(** [M R] is a monad in the sense of stdpp, which gives the notations
    [x ← m; k] and [m;; k]. *)
#[global] Instance M_ret {R} : MRet (M R) := fun A a => ret a.
#[global] Instance M_bind {R} : MBind (M R) := fun A B k m => bind m k.

(** A call that panics ends the process with the exit code 2 of the Go
    run time.  [Undefined] is kept apart from it in [go]; where the model
    calls [lift_go] it is shown not to arise. *)
Definition lift_go {R A} (g : go A) : M R A :=
  match g with
  | Ok a => mret a
  | Panic msg => emit (Stderr ("panic: " +:+ msg +:+ nl));; os_Exit 2
  | Undefined => emit (Stderr ("undefined" +:+ nl));; os_Exit 2
  end.

(** [for _, x := range l { body }] *)
Fixpoint for_range {R A} (l : list A) (body : A -> M R unit) : M R unit :=
  match l with
  | [] => mret tt
  | x :: l' => body x;; for_range l' body
  end.

(** ** The wallet command *)

(** [padHexLeft] *)
Definition padHexLeft (s : string) : string :=
  if (Nat.eqb (String.length s mod 2) 0)%nat then s else String "0" s.

(** What [queryUSDCBalance] makes of the answer to its POST: the human
    balance, the raw balance and the error ([None] is [nil]). *)
Definition decodeBalance (reply : rpcReply) : go (string * string * option string) :=
  match reply with
  | PostFailed err =>
      Ok (EmptyString, EmptyString, Some ("rpc call failed: " +:+ err))
  | InvalidJSON =>
      Ok (EmptyString, EmptyString, Some "invalid rpc response")
  | Envelope _ (Some message) =>
      Ok (EmptyString, EmptyString, Some ("rpc error: " +:+ message))
  | Envelope result None =>
      let hexStr := TrimPrefix result "0x" in
      if is_empty hexStr || String.eqb hexStr "0" then Ok ("0", "0", None)
      else
        match hex_DecodeString (padHexLeft hexStr) with
        | None =>
            Ok (EmptyString, EmptyString, Some ("invalid hex: " +:+ hexStr))
        | Some balanceBytes =>
            let raw := big_String (SetBytes balanceBytes) in
            match atomicToHuman raw 6 with
            | Ok human => Ok (human, raw, None)
            | Panic msg => Panic msg
            | Undefined => Undefined
            end
        end
  end.

(** [queryUSDCBalance]: one eth_call of balanceOf(address), selector
    0x70a08231, the address padded to 32 bytes. *)
Definition queryUSDCBalance {R} (w : world) (rpcURL contractAddr walletAddr : string)
  : M R (string * string * option string) :=
  let addr := TrimPrefix (ToLower walletAddr) "0x" in
  let callData := "0x70a08231" +:+ Sprintf_0s 64 addr in
  emit (RpcPost rpcURL contractAddr callData);;
  lift_go (decodeBalance (rpc_Post w rpcURL contractAddr callData)).

(** [availableNetworks] *)
Definition availableNetworks (w : world) : string :=
  String.concat ", " ((range w networks).*1).

Definition error_entry (name : string) (info : networkInfo) (err : string) : balanceEntry :=
  {| EntryNetwork := name; EntryChainID := ChainID info; Asset := "USDC";
     Balance := "error"; EntryDecimals := 0; Raw := err |}.

Definition balance_entry (name : string) (info : networkInfo) (humanBalance raw : string)
  : balanceEntry :=
  {| EntryNetwork := name; EntryChainID := ChainID info; Asset := "USDC";
     Balance := humanBalance; EntryDecimals := Decimals info; Raw := raw |}.

(** The body of the loop of [runWallet] over [netsToQuery]. *)
Definition runWallet_body (w : world) (address : string) (jsonOutput : bool)
    (kv : string * networkInfo) : M walletResult unit :=
  let '(name, info) := kv in
  '(humanBalance, raw, err) ← queryUSDCBalance w (RPCURL info) (USDCContract info) address;
  match err with
  | Some e =>
      update (append_Balance (error_entry name info e));;
      when (negb jsonOutput)
        (emit (Stdout ("  " +:+ Sprintf_left 18 (Name info +:+ " (USDC):")
                         +:+ "  error: " +:+ e +:+ nl)))
  | None =>
      update (append_Balance (balance_entry name info humanBalance raw));;
      when (negb jsonOutput)
        (emit (Stdout ("  " +:+ Sprintf_left 18 (Name info +:+ ":")
                         +:+ "  " +:+ humanBalance +:+ " USDC" +:+ nl)))
  end.

(** [runWallet] from the point where [netsToQuery] is settled. *)
Definition runWallet_query (w : world) (address : string) (jsonOutput : bool)
    (netsToQuery : gmap string networkInfo) : M walletResult unit :=
  when (negb jsonOutput) (emit (Stdout ("Wallet:  " +:+ address +:+ nl +:+ nl)));;
  for_range (range w netsToQuery) (runWallet_body w address jsonOutput);;
  when jsonOutput (result ← get; emit (EmitWalletJSON result)).

(** [runWallet]: an unknown network is reported and the function returns. *)
Definition runWallet (w : world) (address network : string) (jsonOutput : bool)
  : M walletResult unit :=
  update (fun _ => {| Address := address; Balances := [];
                      WalletError := EmptyString |});;
  if is_empty network then runWallet_query w address jsonOutput networks
  else
    match networks !! network with
    | Some info => runWallet_query w address jsonOutput {[ network := info ]}
    | None =>
        if jsonOutput then
          update (set_WalletError ("unknown network: " +:+ network));;
          result ← get;
          emit (EmitWalletJSON result)
        else
          emit (Stderr ("Unknown network: " +:+ network +:+ nl));;
          emit (Stderr ("Available: " +:+ availableNetworks w +:+ nl))
    end.

(** [runWalletCmd], after its flags are parsed.  [main] returns when it
    returns, so a [Ret] here is a process that ends with exit code 0. *)
Definition runWalletCmd (w : world) (network : string) (jsonOut : bool)
  : M walletResult unit :=
  let privateKey := EVM_PRIVATE_KEY w in
  if is_empty privateKey then
    emit (Stderr ("Error: EVM_PRIVATE_KEY is required." +:+ nl));;
    emit (Stderr ("Set it with: export EVM_PRIVATE_KEY=0x..." +:+ nl));;
    os_Exit 1
  else
    emit (NewSigner privateKey);;
    match NewClientSignerFromPrivateKey w privateKey with
    | inl err =>
        emit (Stderr ("Failed to create signer: " +:+ err +:+ nl));;
        os_Exit 1
    | inr address => runWallet w address network jsonOut
    end.

Definition run_wallet (w : world) (network : string) (jsonOut : bool)
  : outcome walletResult unit :=
  runWalletCmd w network jsonOut {| locals := walletResult_zero; trace := [] |}.

(** ** The URL mode: [main] *)

(** [json.MarshalIndent(result, ...)] returns no error.  Of the fields of
    a [jsonResult] only the two of type [*json.RawMessage] can make it
    fail: the bytes decoded from a header are marshalled as they are, and
    the encoder rejects them when they are no JSON text. *)
Definition raw_valid (w : world) (raw : option string) : bool :=
  match raw with
  | Some b => json_Valid w b
  | None => true
  end.

Definition marshals (w : world) (result : jsonResult) : bool :=
  raw_valid w (p ← Probe result; PaymentRequirements p) &&
  raw_valid w (p ← Payment result; PaymentResponse p).

(** [exitJSON]: the error of [json.MarshalIndent] is dropped, and with it
    the output is nil: an empty line is printed in place of the document.
    The exit code is the same in both cases. *)
Definition exitJSON {A} (w : world) (result : jsonResult) (code : Z)
  : M jsonResult A :=
  (if marshals w result then emit (EmitJSON result) else emit (Stdout nl));;
  os_Exit code.

(** [saveOutput] *)
Definition saveOutput {R} (w : world) (outputFile body : string) : M R unit :=
  if is_empty outputFile || (len body =? 0) then mret tt
  else
    emit (FileWrite outputFile body);;
    match WriteFile w outputFile body with
    | Some err =>
        emit (Stderr ("Warning: failed to write to " +:+ outputFile +:+ ": "
                        +:+ err +:+ nl))
    | None => mret tt
    end.

(** [printBase64Header]; [PrintDecoded] is its second print, made when the
    decoded bytes are JSON. *)
Definition printBase64Header {R} (name value : string) : M R unit :=
  emit (Stdout (name +:+ ": " +:+ truncate value 60 +:+ "..." +:+ nl));;
  match base64_DecodeString value with
  | Some decoded => emit (PrintDecoded name decoded)
  | None => mret tt
  end.

(** [main], lines 358 to 409: the response of the paid request. *)
Definition main_payment (fl : flags) (w : world) (human : bool)
    (address : string) (resp2 : response) : M jsonResult unit :=
  let log s := when human (emit (Stdout s)) in
  let logln s := when human (emit (Stdout (s +:+ nl))) in
  let body2 := RespBody resp2 in
  when (verbose fl && human) (emit (DumpResponse (RespStatusCode resp2) body2));;
  let pay := {| PayStatusCode := RespStatusCode resp2;
                Accepted := RespStatusCode resp2 =? StatusOK;
                Signer := address;
                PaymentResponse := None;
                PayBody := body2 |} in
  let payRespHeader := Header_Get resp2 "PAYMENT-RESPONSE" in
  pay ← (if negb (is_empty payRespHeader) then
           let pay' := match base64_DecodeString payRespHeader with
                       | Some decoded => set_PaymentResponse decoded pay
                       | None => pay
                       end in
           when human (printBase64Header "PAYMENT-RESPONSE" payRespHeader);;
           mret pay'
         else mret pay);
  update (set_Payment pay);;
  when (negb (jsonOutput fl))
    (log ("Status: " +:+ big_String (RespStatusCode resp2) +:+ nl);;
     when (negb (verbose fl))
       (log ("Body: " +:+ truncate body2 500 +:+ nl +:+ nl)));;
  saveOutput w (outputFile fl) body2;;
  if RespStatusCode resp2 =? StatusOK then
    logln "Payment accepted!";;
    update (set_Status "accepted");;
    when (jsonOutput fl) (result ← get; exitJSON w result ExitSuccess);;
    os_Exit ExitSuccess
  else if RespStatusCode resp2 =? StatusPaymentRequired then
    logln "Payment was rejected. Check wallet balance and facilitator logs.";;
    update (set_Status "rejected");;
    when (jsonOutput fl) (result ← get; exitJSON w result ExitPaymentRejected);;
    os_Exit ExitPaymentRejected
  else
    log ("Unexpected status " +:+ big_String (RespStatusCode resp2) +:+ "." +:+ nl);;
    update (set_Status "error");;
    update (set_Error ("unexpected status " +:+ big_String (RespStatusCode resp2)));;
    when (jsonOutput fl) (result ← get; exitJSON w result ExitError);;
    os_Exit ExitError.

(** [main], lines 301 to 356: Step 2, up to the paid request. *)
Definition main_step2 (fl : flags) (w : world) (human : bool) (method : string)
  : M jsonResult unit :=
  let log s := when human (emit (Stdout s)) in
  let logln s := when human (emit (Stdout (s +:+ nl))) in
  let privateKey := EVM_PRIVATE_KEY w in
  when (is_empty privateKey)
    (let errMsg := "EVM_PRIVATE_KEY is required for Step 2 (payment)" in
     when (jsonOutput fl)
       (update (set_Status "error");;
        update (set_Error errMsg);;
        result ← get; exitJSON w result ExitError);;
     emit (Stderr (nl +:+ "Error: " +:+ errMsg +:+ "." +:+ nl));;
     emit (Stderr ("Set it with: export EVM_PRIVATE_KEY=0x..." +:+ nl));;
     os_Exit ExitError);;
  logln "--- Step 2: Request with x402 payment ---";;
  emit (NewSigner privateKey);;
  match NewClientSignerFromPrivateKey w privateKey with
  | inl err =>
      when (jsonOutput fl)
        (update (set_Status "error");;
         update (set_Error ("failed to create signer: " +:+ err));;
         result ← get; exitJSON w result ExitError);;
      emit (Stderr ("Failed to create signer: " +:+ err +:+ nl));;
      os_Exit ExitError
  | inr address =>
      log ("Signer: " +:+ address +:+ nl);;
      emit (PaymentDo method (endpoint fl) (data fl) (headers fl));;
      match httpClient_Do w method (endpoint fl) (data fl) (headers fl) with
      | inl err =>
          when (jsonOutput fl)
            (update (set_Status "error");;
             update (set_Error ("payment request failed: " +:+ err));;
             result ← get; exitJSON w result ExitError);;
          emit (Stderr ("Payment request failed: " +:+ err +:+ nl));;
          os_Exit ExitError
      | inr resp2 => main_payment fl w human address resp2
      end
  end.

(** [main], lines 257 to 299: the classification of the probe status,
    the skip flag and the dry-run confirmation.  Of the response it reads the
    status code and the body only. *)
Definition main_classify (fl : flags) (w : world) (human : bool) (method : string)
    (StatusCode : Z) (body : string) : M jsonResult unit :=
  let logln s := when human (emit (Stdout (s +:+ nl))) in
  when (negb (StatusCode =? StatusPaymentRequired))
    (logln "Endpoint did not return 402 Payment Required.";;
     when (StatusCode =? StatusOK)
       (logln "The endpoint is accessible without payment (free route).";;
        saveOutput w (outputFile fl) body;;
        update (set_Status "free");;
        when (jsonOutput fl) (result ← get; exitJSON w result ExitFreeRoute);;
        os_Exit ExitFreeRoute);;
     update (set_Status "no_402");;
     when (jsonOutput fl) (result ← get; exitJSON w result ExitSuccess);;
     os_Exit ExitSuccess);;
  when (skipVerify fl)
    (logln "--skip-verify: stopping after Step 1.";;
     update (set_Status "payment_required");;
     when (jsonOutput fl) (result ← get; exitJSON w result ExitSuccess);;
     os_Exit ExitSuccess);;
  when (dryRun fl && negb (autoYes fl))
    (when (jsonOutput fl)
       (update (set_Status "payment_required");;
        result ← get; exitJSON w result ExitSuccess);;
     emit (PaymentSummary body);;
     emit (Stdout (nl +:+ "Proceed with payment? [y/N] "));;
     emit ReadStdin;;
     when (negb match stdin_line w with
                | Some text => HasPrefix (ToLower (TrimSpace text)) "y"
                | None => false
                end)
       (emit (Stdout ("Aborted." +:+ nl));;
        os_Exit ExitSuccess);;
     emit (Stdout nl));;
  main_step2 fl w human method.

(** [main], lines 234 to 255: the probe result. *)
Definition main_build_probe (fl : flags) (human : bool) (resp : response)
  : M jsonResult unit :=
  let log s := when human (emit (Stdout s)) in
  let body := RespBody resp in
  let probe := {| ProbeStatusCode := RespStatusCode resp;
                  PaymentRequired := RespStatusCode resp =? StatusPaymentRequired;
                  PaymentRequirements := None;
                  ProbeBody := EmptyString |} in
  let payReqHeader := Header_Get resp "PAYMENT-REQUIRED" in
  probe ← (if negb (is_empty payReqHeader) then
             let probe' := match base64_DecodeString payReqHeader with
                           | Some decoded => set_PaymentRequirements decoded probe
                           | None => probe
                           end in
             when human (printBase64Header "PAYMENT-REQUIRED" payReqHeader);;
             mret probe'
           else mret probe);
  when (negb (jsonOutput fl))
    (log ("Status: " +:+ big_String (RespStatusCode resp) +:+ nl);;
     when (negb (verbose fl))
       (log ("Body: " +:+ truncate body 300 +:+ nl +:+ nl)));;
  let probe := set_ProbeBody body probe in
  update (set_Probe probe).

(** [main] from the arrival of the probe response on. *)
Definition main_probe (fl : flags) (w : world) (human : bool) (method : string)
    (resp : response) : M jsonResult unit :=
  when (verbose fl && human)
    (emit (DumpResponse (RespStatusCode resp) (RespBody resp)));;
  main_build_probe fl human resp;;
  main_classify fl w human method (RespStatusCode resp) (RespBody resp).

(** [main] in the URL mode, from [flag.Parse] on. *)
Definition main (fl : flags) (w : world) : M jsonResult unit :=
  when (showVer fl)
    ((if jsonOutput fl then emit (EmitVersionJSON (version w))
      else emit (Stdout ("x402-cli " +:+ version w +:+ nl)));;
     os_Exit 0);;
  when (is_empty (endpoint fl))
    (when (jsonOutput fl)
       (exitJSON w {| Version := version w; Endpoint := EmptyString;
                    Method := EmptyString; Status := "error"; Probe := None;
                    Payment := None; Error := "URL argument is required" |}
                 ExitError);;
     emit (Stderr ("Error: URL argument is required" +:+ nl));;
     emit (Stderr ("Usage: x402-cli [flags] <url>" +:+ nl));;
     os_Exit ExitError);;
  let method := if negb (is_empty (data fl)) && String.eqb (method fl) "GET"
                then "POST" else method fl in
  let human := negb (quiet fl) && negb (jsonOutput fl) in
  let log s := when human (emit (Stdout s)) in
  let logln s := when human (emit (Stdout (s +:+ nl))) in
  update (fun _ => {| Version := version w; Endpoint := endpoint fl;
                      Method := method; Status := EmptyString; Probe := None;
                      Payment := None; Error := EmptyString |});;
  log ("x402-cli " +:+ version w +:+ nl);;
  log ("Endpoint: " +:+ endpoint fl +:+ nl);;
  log ("Method:   " +:+ method +:+ nl +:+ nl);;
  logln "--- Step 1: Request without payment ---";;
  match NewRequest w method (endpoint fl) with
  | Some err =>
      when (jsonOutput fl)
        (update (set_Status "error");;
         update (set_Error err);;
         result ← get; exitJSON w result ExitError);;
      emit (Stderr ("Error creating request: " +:+ err +:+ nl));;
      os_Exit ExitError
  | None =>
      when (verbose fl && human) (emit (DumpRequest method (endpoint fl)));;
      emit (PlainDo method (endpoint fl) (data fl) (headers fl));;
      match plainClient_Do w method (endpoint fl) (data fl) (headers fl) with
      | inl err =>
          when (jsonOutput fl)
            (update (set_Status "error");;
             update (set_Error err);;
             result ← get; exitJSON w result ExitError);;
          emit (Stderr ("Error: " +:+ err +:+ nl));;
          os_Exit ExitError
      | inr resp => main_probe fl w human method resp
      end
  end.

Definition run_main (fl : flags) (w : world) : outcome jsonResult unit :=
  main fl w {| locals := jsonResult_zero; trace := [] |}.

(** ** Observations on a trace *)

(** Signer construction and the paid request: the payment phase. *)
Definition is_payment_event (e : event) : bool :=
  match e with
  | NewSigner _ | PaymentDo _ _ _ _ => true
  | _ => false
  end.

Definition is_stderr (e : event) : bool :=
  match e with
  | Stderr _ => true
  | _ => false
  end.

(** The documents written by [exitJSON]. *)
Definition emitted (tr : list event) : list jsonResult :=
  omap (fun e => match e with EmitJSON r => Some r | _ => None end) tr.

Definition emitted_wallet (tr : list event) : list walletResult :=
  omap (fun e => match e with EmitWalletJSON r => Some r | _ => None end) tr.

(** The RPC URLs called, in order. *)
Definition rpc_urls (tr : list event) : list string :=
  omap (fun e => match e with RpcPost url _ _ => Some url | _ => None end) tr.

(** The probe was made and answered with [resp]: no version query, a URL
    argument, a request that could be built, no transport error. *)
Definition effective_method (fl : flags) : string :=
  if negb (is_empty (data fl)) && String.eqb (method fl) "GET"
  then "POST" else method fl.

Definition probed (fl : flags) (w : world) (resp : response) : Prop :=
  showVer fl = false /\
  is_empty (endpoint fl) = false /\
  NewRequest w (effective_method fl) (endpoint fl) = None /\
  plainClient_Do w (effective_method fl) (endpoint fl) (data fl) (headers fl)
    = inr resp.

(** The operator's answer at the dry-run prompt is affirmative. *)
Definition confirms (w : world) : bool :=
  match stdin_line w with
  | Some text => HasPrefix (ToLower (TrimSpace text)) "y"
  | None => false
  end.


(** ** The balance of one network *)

(** The call data of balanceOf for a wallet address. *)
Definition callData (walletAddr : string) : string :=
  "0x70a08231" +:+ Sprintf_0s 64 (TrimPrefix (ToLower walletAddr) "0x").

(** What the query of one network comes to in a world: it reads the
    answer of that network's RPC endpoint and nothing else. *)
Definition balance_of (w : world) (info : networkInfo) (address : string)
  : go (string * string * option string) :=
  decodeBalance (rpc_Post w (RPCURL info) (USDCContract info) (callData address)).

(** The entry the loop of [runWallet] appends for one network. *)
Definition network_entry (w : world) (address : string) (kv : string * networkInfo)
  : balanceEntry :=
  match balance_of w kv.2 address with
  | Ok (_, _, Some e) => error_entry kv.1 kv.2 e
  | Ok (humanBalance, raw, None) => balance_entry kv.1 kv.2 humanBalance raw
  | _ => error_entry kv.1 kv.2 EmptyString
  end.

(** The events of one turn of the loop. *)
Definition network_events (w : world) (address : string) (jsonOutput : bool)
    (kv : string * networkInfo) : list event :=
  RpcPost (RPCURL kv.2) (USDCContract kv.2) (callData address) ::
  (if jsonOutput then []
   else match balance_of w kv.2 address with
        | Ok (_, _, Some e) =>
            [Stdout ("  " +:+ Sprintf_left 18 (Name kv.2 +:+ " (USDC):")
                       +:+ "  error: " +:+ e +:+ nl)]
        | Ok (humanBalance, _, None) =>
            [Stdout ("  " +:+ Sprintf_left 18 (Name kv.2 +:+ ":")
                       +:+ "  " +:+ humanBalance +:+ " USDC" +:+ nl)]
        | _ => []
        end).

(** The events of the loop over the networks visited. *)
Definition loop_events (w : world) (address : string) (jsonOutput : bool)
    (l : list (string * networkInfo)) : list event :=
  l ≫= network_events w address jsonOutput.

(** ** The probe outcome *)

(** Human-readable progress lines are printed in this mode only. *)
Definition human_mode (fl : flags) : bool := negb (quiet fl) && negb (jsonOutput fl).

(** The probe result that lines 235 to 255 of [main] build from a
    response. *)
Definition probe_outcome (resp : response) : probeResult :=
  {| ProbeStatusCode := RespStatusCode resp;
     PaymentRequired := RespStatusCode resp =? StatusPaymentRequired;
     PaymentRequirements :=
       (let payReqHeader := Header_Get resp "PAYMENT-REQUIRED" in
        if is_empty payReqHeader then None else base64_DecodeString payReqHeader);
     ProbeBody := RespBody resp |}.

(** ** Invariants

    [preserves I m]: the relation [I] holds between the state [m] starts
    in and the state it ends in, by returning or by exiting. *)
Definition preserves {R A} (I : relation (pstate R)) (m : M R A) : Prop :=
  forall s, I s (final (m s)).

(** The probe result, once set, stays as it is. *)
Definition same_Probe : relation (pstate jsonResult) :=
  fun s s' => Probe (locals s') = Probe (locals s).

(** A stretch of trace of Step 1: no signer, no paid request, nothing on
    the diagnostic stream, no document emitted. *)
Definition step1_trace (tr : list event) : Prop :=
  existsb is_payment_event tr = false /\
  existsb is_stderr tr = false /\
  emitted tr = [].

(** ** Sample inputs *)

Definition sample_response (code : Z) (payReq body : string) : response :=
  {| RespStatusCode := code;
     Header_Get := fun key => if String.eqb key "PAYMENT-REQUIRED" then payReq
                              else EmptyString;
     RespBody := body |}.

(** A world with a given credential, probe response and operator answer.
    The Base Sepolia endpoint times out; the others answer a balance of one
    million atomic units. *)
Definition sample_world (key : string) (resp : response) (answer : string) : world :=
  {| version := "dev";
     EVM_PRIVATE_KEY := key;
     NewRequest := fun _ _ => None;
     plainClient_Do := fun _ _ _ _ => inr resp;
     stdin_line := Some answer;
     NewClientSignerFromPrivateKey :=
       fun _ => inr "0xe312C88D2102f1eE75aBD221cA9dc72Db406ae4A";
     httpClient_Do := fun _ _ _ _ => inr (sample_response 200 EmptyString "paid");
     WriteFile := fun _ _ => None;
     rpc_Post := fun url _ _ =>
       if String.eqb url "https://sepolia.base.org" then PostFailed "timeout"
       else Envelope
              "0x00000000000000000000000000000000000000000000000000000000000f4240"
              None;
     range := map_to_list;
     json_Valid := json_text |}.

Definition sample_flags (skip dry json yes : bool) : flags :=
  {| insecure := false; timeout := 30; method := "GET"; showVer := false;
     skipVerify := skip; data := EmptyString; verbose := false; dryRun := dry;
     jsonOutput := json; autoYes := yes; quiet := false;
     outputFile := EmptyString; headers := [];
     endpoint := "https://api.example.com/paid-endpoint" |}.

(** ** Further observations on a run *)

(** Output meant for a human reader: progress lines, dumps, the decoded
    header, the payment summary. *)
Definition is_human_event (e : event) : bool :=
  match e with
  | Stdout _ | DumpRequest _ _ | DumpResponse _ _ | PrintDecoded _ _
  | PaymentSummary _ => true
  | _ => false
  end.

Definition is_document (e : event) : bool :=
  match e with
  | EmitJSON _ | EmitWalletJSON _ | EmitVersionJSON _ => true
  | _ => false
  end.

Definition is_network_event (e : event) : bool :=
  match e with
  | PlainDo _ _ _ _ | PaymentDo _ _ _ _ | RpcPost _ _ _ => true
  | _ => false
  end.

Definition is_stdin_read (e : event) : bool :=
  match e with
  | ReadStdin => true
  | _ => false
  end.

(** The requests that went out, in order. *)
Definition network_calls (tr : list event) : list event :=
  List.filter is_network_event tr.

(** The files written, in order. *)
Definition files_written (tr : list event) : list (string * string) :=
  omap (fun e => match e with FileWrite path body => Some (path, body) | _ => None end) tr.

(** The documents printed, in order. *)
Definition documents (tr : list event) : list event :=
  List.filter is_document tr.

(** The exit code that goes with each status of the result in [main]. *)
Definition status_exit (status : string) : option Z :=
  if String.eqb status "free" then Some ExitFreeRoute
  else if String.eqb status "rejected" then Some ExitPaymentRejected
  else if String.eqb status "error" then Some ExitError
  else if String.eqb status "no_402" then Some ExitSuccess
  else if String.eqb status "payment_required" then Some ExitSuccess
  else if String.eqb status "accepted" then Some ExitSuccess
  else None.

(** The dry-run prompt lets the run through: no dry run, or
    auto-confirmation, or in text mode an answer that starts with y. *)
Definition passes_prompt (fl : flags) (w : world) : Prop :=
  dryRun fl && negb (autoYes fl) = false
  \/ (jsonOutput fl = false /\ confirms w = true).

(** The payment result that lines 359 to 373 of [main] build from the
    response to the paid request. *)
Definition pay_outcome (address : string) (resp2 : response) : payResult :=
  {| PayStatusCode := RespStatusCode resp2;
     Accepted := RespStatusCode resp2 =? StatusOK;
     Signer := address;
     PaymentResponse :=
       (let payRespHeader := Header_Get resp2 "PAYMENT-RESPONSE" in
        if is_empty payRespHeader then None else base64_DecodeString payRespHeader);
     PayBody := RespBody resp2 |}.

(** The paid request was made and answered with [resp2]: a credential, a
    signer for it with this address, no transport error. *)
Definition paid (fl : flags) (w : world) (address : string) (resp2 : response) : Prop :=
  is_empty (EVM_PRIVATE_KEY w) = false /\
  NewClientSignerFromPrivateKey w (EVM_PRIVATE_KEY w) = inr address /\
  httpClient_Do w (effective_method fl) (endpoint fl) (data fl) (headers fl)
    = inr resp2.

(** The trace of Step 1 in full: the probe request is the one network
    call so far; no signer, no paid request, nothing on the diagnostic
    stream, no document, no file written, no read of standard input; and no
    output for a human reader unless the mode is the human one. *)
Definition probe_trace (fl : flags) (tr : list event) : Prop :=
  step1_trace tr /\
  network_calls tr
  = [PlainDo (effective_method fl) (endpoint fl) (data fl) (headers fl)] /\
  files_written tr = [] /\
  existsb is_stdin_read tr = false /\
  (human_mode fl = false -> existsb is_human_event tr = false) /\
  documents tr = [].

(** The result that [main] ends with once the paid request is answered. *)
Definition payment_result (r : jsonResult) (address : string) (resp2 : response)
  : jsonResult :=
  let code2 := RespStatusCode resp2 in
  let r' := set_Payment (pay_outcome address resp2) r in
  if code2 =? StatusOK then set_Status "accepted" r'
  else if code2 =? StatusPaymentRequired then set_Status "rejected" r'
  else set_Error ("unexpected status " +:+ big_String code2) (set_Status "error" r').

Definition payment_exit (resp2 : response) : Z :=
  let code2 := RespStatusCode resp2 in
  if code2 =? StatusOK then ExitSuccess
  else if code2 =? StatusPaymentRequired then ExitPaymentRejected
  else ExitError.

(** A world with another signer library answer and another answer to the
    paid request. *)
Definition with_payment (signer : string + string) (reply : string + response)
    (w : world) : world :=
  {| version := version w;
     EVM_PRIVATE_KEY := EVM_PRIVATE_KEY w;
     NewRequest := NewRequest w;
     plainClient_Do := plainClient_Do w;
     stdin_line := stdin_line w;
     NewClientSignerFromPrivateKey := fun _ => signer;
     httpClient_Do := fun _ _ _ _ => reply;
     WriteFile := WriteFile w;
     rpc_Post := rpc_Post w;
     range := range w;
     json_Valid := json_Valid w |}.

(** A world whose network is down: the probe, the paid request and every
    RPC call fail in transport. *)
Definition offline_world (key : string) : world :=
  {| version := "dev";
     EVM_PRIVATE_KEY := key;
     NewRequest := fun _ _ => None;
     plainClient_Do := fun _ _ _ _ => inl "connection refused";
     stdin_line := None;
     NewClientSignerFromPrivateKey :=
       fun _ => inr "0xe312C88D2102f1eE75aBD221cA9dc72Db406ae4A";
     httpClient_Do := fun _ _ _ _ => inl "connection refused";
     WriteFile := fun _ _ => None;
     rpc_Post := fun _ _ _ => PostFailed "connection refused";
     range := map_to_list;
     json_Valid := json_text |}.

(** Flags of a text-mode run with -q, with or without --dry-run, that
    saves the body to a file. *)
Definition sample_quiet_flags (dry : bool) (out : string) : flags :=
  {| insecure := false; timeout := 30; method := "GET"; showVer := false;
     skipVerify := false; data := EmptyString; verbose := false; dryRun := dry;
     jsonOutput := false; autoYes := false; quiet := true;
     outputFile := out; headers := [];
     endpoint := "https://api.example.com/paid-endpoint" |}.

(** Flags of a quiet text-mode run that sends a body and leaves the
    method at its default. *)
Definition sample_body_flags (body : string) : flags :=
  {| insecure := false; timeout := 30; method := "GET"; showVer := false;
     skipVerify := false; data := body; verbose := false; dryRun := false;
     jsonOutput := false; autoYes := false; quiet := true;
     outputFile := EmptyString; headers := [];
     endpoint := "https://api.example.com/paid-endpoint" |}.

(** ** Further observations on the wallet command *)

(** The value of a hexadecimal numeral, digits in either case; [None] when
    a character is no hexadecimal digit. *)
Fixpoint hex_value_acc (s : string) (acc : Z) : option Z :=
  match s with
  | EmptyString => Some acc
  | String c s' => d ← hex_val c; hex_value_acc s' (16 * acc + d)
  end.

Definition hex_value (s : string) : option Z := hex_value_acc s 0.

(** [runWalletCmd] gets as far as [runWallet]: a credential is set and the
    signer library takes it. *)
Definition signer_ready (w : world) : bool :=
  negb (is_empty (EVM_PRIVATE_KEY w)) &&
  match NewClientSignerFromPrivateKey w (EVM_PRIVATE_KEY w) with
  | inr _ => true
  | inl _ => false
  end.

(** Text in which every byte is an ASCII character: on such text
    [TrimSpace] and [ToLower] above are the functions of [strings]. *)
Fixpoint is_ascii_text (s : string) : bool :=
  match s with
  | EmptyString => true
  | String c s' => (N_of_ascii c <? 128)%N && is_ascii_text s'
  end.

(** ** Request headers: [applyHeaders] *)

(** [strings.Cut(s, ":")]: the text before and after the first colon;
    [None] is the [found = false] return. *)
Fixpoint Cut_colon (s : string) : option (string * string) :=
  match s with
  | EmptyString => None
  | String c s' =>
      if Ascii.eqb c ":" then Some (EmptyString, s')
      else match Cut_colon s' with
           | Some (k, v) => Some (String c k, v)
           | None => None
           end
  end.

(** [http.Header.Set]: the values kept under the canonical form of the key
    are replaced by the one value.  [canon] is
    [textproto.CanonicalMIMEHeaderKey]. *)
Definition Header_Set (canon : string -> string) (key value : string)
    (h : gmap string (list string)) : gmap string (list string) :=
  <[canon key := [value]]> h.

(** [applyHeaders], on the header map of the request. *)
Fixpoint applyHeaders (canon : string -> string) (h : gmap string (list string))
    (headers : list string) : gmap string (list string) :=
  match headers with
  | [] => h
  | s :: headers' =>
      match Cut_colon s with
      | Some (k, v) =>
          applyHeaders canon (Header_Set canon (TrimSpace k) (TrimSpace v) h) headers'
      | None => applyHeaders canon h headers'
      end
  end.

(** * Properties *)

(** stdpp keeps [simpl] from unfolding string concatenation; the proofs
    below compute with it. *)
#[local] Arguments String.append : simpl nomatch.

(** ** Strings *)

Lemma length_app (s t : string) :
  String.length (s +:+ t) = (String.length s + String.length t)%nat.
Proof. induction s as [|c s IH]; simpl; [reflexivity | now rewrite IH]. Qed.

Lemma app_assoc_string (s t u : string) : (s +:+ t) +:+ u = s +:+ (t +:+ u).
Proof. induction s as [|c s IH]; cbn; [reflexivity | now f_equal]. Qed.

Lemma length_repeat_char (c : ascii) (n : nat) :
  String.length (repeat_char c n) = n.
Proof. induction n as [|n IH]; simpl; [reflexivity | now rewrite IH]. Qed.

(** What [strings.TrimRight(s, "0")] removes is a run of zeros. *)
Lemma TrimRight0_zeros (s : string) :
  exists k, s = TrimRight0 s +:+ repeat_char "0" k.
Proof.
  induction s as [|c s [k IH]]; simpl.
  - now exists O.
  - destruct (TrimRight0 s) as [|c' t] eqn:E.
    + destruct (Ascii.eqb_spec c "0") as [->|_].
      * exists (S k). simpl in *. now rewrite IH at 1.
      * exists k. simpl in *. now rewrite IH at 1.
    + exists k. simpl in *. now rewrite IH at 1.
Qed.

(** Nothing is left to trim in a trimmed string. *)
Lemma TrimRight0_idem (s : string) : TrimRight0 (TrimRight0 s) = TrimRight0 s.
Proof.
  induction s as [|c s IH]; simpl; [reflexivity|].
  destruct (TrimRight0 s) as [|c' t] eqn:E.
  - destruct (Ascii.eqb_spec c "0") as [->|Hc]; simpl; [reflexivity|].
    destruct (Ascii.eqb_spec c "0"); [contradiction | reflexivity].
  - simpl in *. now rewrite IH.
Qed.

Lemma substring_0_0 (s : string) : substring 0 0 s = EmptyString.
Proof. now destruct s. Qed.

(** ** Decimal numerals *)

Lemma digit_val_char (d : Z) : 0 <= d < 10 -> digit_val (digit_char d) = Some d.
Proof.
  intros H.
  assert (d = 0 \/ d = 1 \/ d = 2 \/ d = 3 \/ d = 4 \/ d = 5 \/ d = 6 \/ d = 7
          \/ d = 8 \/ d = 9) as Hd by lia.
  repeat (destruct Hd as [-> | Hd]; [reflexivity|]). now subst.
Qed.

Lemma scan_digits_app (s t : string) (acc : Z) :
  scan_digits (s +:+ t) acc = scan_digits s acc ≫= scan_digits t.
Proof.
  revert acc. induction s as [|c s IH]; intros acc; simpl; [reflexivity|].
  destruct (digit_val c); [apply IH | reflexivity].
Qed.

Lemma scan_digits_zeros (k : nat) (acc : Z) :
  scan_digits (repeat_char "0" k) acc = Some (acc * 10 ^ Z.of_nat k).
Proof.
  revert acc. induction k as [|k IH]; intros acc.
  - simpl. f_equal. lia.
  - change (scan_digits (repeat_char "0" (S k)) acc)
      with (scan_digits (repeat_char "0" k) (10 * acc + 0)).
    rewrite IH. f_equal. rewrite Nat2Z.inj_succ, Z.pow_succ_r by lia. lia.
Qed.

Lemma utoa_aux_acc (fuel : nat) (n : Z) (acc : string) :
  utoa_aux fuel n acc = utoa_aux fuel n EmptyString +:+ acc.
Proof.
  revert n acc. induction fuel as [|fuel IH]; intros n acc; simpl; [reflexivity|].
  destruct (n <? 10); [reflexivity|].
  rewrite (IH _ (String _ acc)), (IH _ (String _ EmptyString)).
  now rewrite app_assoc_string.
Qed.

(** Reading back what [utoa_aux] prints gives the number, with fuel for
    its binary digits. *)
Lemma scan_utoa_aux (fuel : nat) (n : Z) :
  0 <= n < 2 ^ (Z.of_nat fuel + 1) ->
  scan_digits (utoa_aux fuel n EmptyString) 0 = Some n.
Proof.
  revert n. induction fuel as [|fuel IH]; intros n Hn.
  - simpl in *. rewrite digit_val_char by (apply Z.mod_pos_bound; lia).
    f_equal. rewrite Z.mod_small; lia.
  - cbn [utoa_aux]. destruct (Z.ltb_spec n 10) as [Hlt|Hge].
    + simpl. rewrite digit_val_char by (apply Z.mod_pos_bound; lia).
      f_equal. rewrite Z.mod_small; lia.
    + rewrite utoa_aux_acc, scan_digits_app, IH.
      * simpl. rewrite digit_val_char by (apply Z.mod_pos_bound; lia).
        f_equal. pose proof (Z.div_mod n 10). lia.
      * rewrite Nat2Z.inj_succ in Hn.
        replace (Z.succ (Z.of_nat fuel) + 1) with (Z.succ (Z.of_nat fuel + 1)) in Hn by lia.
        rewrite Z.pow_succ_r in Hn by lia.
        split; [apply Z.div_pos; lia|].
        apply Z.div_lt_upper_bound; lia.
Qed.

Lemma scan_utoa (n : Z) : 0 <= n -> scan_digits (utoa n) 0 = Some n.
Proof.
  intros Hn. unfold utoa. apply scan_utoa_aux. split; [assumption|].
  rewrite Z2Nat.id by apply Z.log2_nonneg.
  destruct (Z.eq_dec n 0) as [->|Hz]; [reflexivity|].
  change (Z.log2 n + 1) with (Z.succ (Z.log2 n)). apply Z.log2_spec. lia.
Qed.

Lemma utoa_aux_nonempty (fuel : nat) (n : Z) (acc : string) :
  utoa_aux fuel n acc <> EmptyString.
Proof.
  revert n acc. induction fuel as [|fuel IH]; intros n acc; simpl; [discriminate|].
  destruct (n <? 10); [discriminate | apply IH].
Qed.

Lemma scan_unsigned_utoa (n : Z) : 0 <= n -> scan_unsigned (utoa n) = Some n.
Proof.
  intros Hn. unfold scan_unsigned.
  destruct (utoa n) eqn:E; [now apply utoa_aux_nonempty in E|].
  rewrite <- E. now apply scan_utoa.
Qed.

(** A number below [10^D] prints in at most [D] digits. *)
Lemma length_utoa_aux (fuel : nat) (n D : Z) :
  1 <= D -> 0 <= n < 10 ^ D ->
  Z.of_nat (String.length (utoa_aux fuel n EmptyString)) <= D.
Proof.
  revert n D. induction fuel as [|fuel IH]; intros n D HD Hn.
  - simpl. lia.
  - cbn [utoa_aux]. destruct (Z.ltb_spec n 10) as [Hlt|Hge]; [simpl; lia|].
    rewrite utoa_aux_acc, length_app. simpl.
    assert (2 <= D) as HD2.
    { destruct (Z.eq_dec D 1) as [->|]; [|lia]. change (10 ^ 1) with 10 in Hn. lia. }
    specialize (IH (n / 10) (D - 1) ltac:(lia)).
    replace D with (Z.succ (D - 1)) in Hn by lia.
    rewrite Z.pow_succ_r in Hn by lia.
    assert (0 <= n / 10 < 10 ^ (D - 1)) as Hq.
    { split; [apply Z.div_pos; lia | apply Z.div_lt_upper_bound; lia]. }
    specialize (IH Hq). lia.
Qed.

Lemma length_utoa (n D : Z) :
  1 <= D -> 0 <= n < 10 ^ D -> Z.of_nat (String.length (utoa n)) <= D.
Proof. intros. now apply length_utoa_aux. Qed.

(** ** [math/big] on a positive divisor *)

Lemma big_Exp_pow (D : Z) : 0 <= D -> big_Exp 10 D = 10 ^ D.
Proof.
  intros HD. unfold big_Exp. destruct (Z.leb_spec D 0); [|reflexivity].
  now replace D with 0 by lia.
Qed.

Lemma pow10_pos (D : Z) : 0 <= D -> 0 < 10 ^ D.
Proof. intros. apply Z.pow_pos_nonneg; lia. Qed.

Lemma big_Mod_pos (x d : Z) : 0 < d -> big_Mod x d = x mod d.
Proof. intros. unfold big_Mod. now rewrite Z.abs_eq by lia. Qed.

Lemma big_Div_pos (x d : Z) : 0 < d -> big_Div x d = x / d.
Proof.
  intros Hd. unfold big_Div. rewrite big_Mod_pos by assumption.
  rewrite Z.mod_eq by lia.
  replace (x - (x - d * (x / d))) with ((x / d) * d) by lia.
  apply Z.div_mul. lia.
Qed.

(** ** The amount codec *)

(** [atomicToHuman] over the integers: the branches of the source with the
    Euclidean division read as [/] and [mod]. *)
Lemma atomicToHuman_unfold (raw : string) (A D : Z) :
  SetString raw = Some A -> 0 <= D ->
  atomicToHuman raw D =
    if A mod 10 ^ D =? 0 then Ok (big_String (A / 10 ^ D) +:+ ".000000")
    else
      let fracStr := Sprintf_0s D (big_String (A mod 10 ^ D)) in
      if len (TrimRight0 fracStr) <? 2 then
        match slice_to fracStr 2 with
        | Some t => Ok (big_String (A / 10 ^ D) +:+ "." +:+ t)
        | None => Panic "slice bounds out of range"
        end
      else Ok (big_String (A / 10 ^ D) +:+ "." +:+ TrimRight0 fracStr).
Proof.
  intros HA HD. unfold atomicToHuman. rewrite HA, big_Exp_pow by assumption.
  now rewrite big_Mod_pos, big_Div_pos by now apply pow10_pos.
Qed.

(** The remainder padded to the precision: exactly [D] digits that read
    back as the remainder. *)
Lemma padded_remainder (D r : Z) :
  1 <= D -> 0 <= r < 10 ^ D ->
  len (Sprintf_0s D (big_String r)) = D /\
  scan_digits (Sprintf_0s D (big_String r)) 0 = Some r.
Proof.
  intros HD Hr. unfold Sprintf_0s, big_String, len.
  destruct (Z.ltb_spec D 0); [lia|]. destruct (Z.ltb_spec r 0); [lia|].
  pose proof (length_utoa r D HD Hr) as Hlen. split.
  - rewrite length_app, length_repeat_char. lia.
  - rewrite scan_digits_app, scan_digits_zeros. simpl.
    now apply scan_utoa.
Qed.

(** Keeping two digits at least only ever cuts zeros off. *)
Lemma keep_two_zeros (padded : string) :
  (2 <= String.length padded)%nat ->
  slice_to padded 2 = Some (substring 0 2 padded) /\
  (exists k, keep_two padded +:+ repeat_char "0" k = padded) /\
  2 <= len (keep_two padded) /\
  (len (keep_two padded) = 2 \/ TrimRight0 (keep_two padded) = keep_two padded).
Proof.
  intros Hlen. unfold slice_to, keep_two, len.
  destruct (Nat.leb_spec 2 (String.length padded)); [|lia].
  split; [reflexivity|].
  destruct (TrimRight0_zeros padded) as [k Hk].
  destruct (Z.ltb_spec (Z.of_nat (String.length (TrimRight0 padded))) 2) as [Hs|Hs].
  - assert (exists k', substring 0 2 padded +:+ repeat_char "0" k' = padded
                       /\ String.length (substring 0 2 padded) = 2%nat) as (k' & Hk' & H2).
    { rewrite Hk in Hlen |- *. rewrite length_app, length_repeat_char in Hlen.
      destruct (TrimRight0 padded) as [|c [|c' t]]; simpl in Hs, Hlen |- *.
      - destruct k as [|[|k]]; simpl in *; try lia.
        rewrite substring_0_0. now exists k.
      - destruct k as [|k]; simpl in *; try lia.
        rewrite substring_0_0. now exists k.
      - lia. }
    repeat split; eauto; lia.
  - repeat split; eauto using TrimRight0_idem.
Qed.

(** A numeral of digits before the point parses as it reads. *)
Lemma split_dot_digits (u f : string) (acc v : Z) :
  scan_digits u acc = Some v ->
  split_dot (u +:+ String "." f) = Some (u, f).
Proof.
  revert acc. induction u as [|c u IH]; intros acc H; simpl in *; [reflexivity|].
  destruct (digit_val c) as [d|] eqn:E; [|discriminate].
  destruct (Ascii.eqb_spec c ".") as [->|_]; [discriminate|].
  now rewrite (IH _ H).
Qed.

Lemma parse_decimal_value (w fv : Z) (f : string) :
  0 <= w -> f <> EmptyString -> scan_digits f 0 = Some fv ->
  parse_decimal (utoa w +:+ "." +:+ f)
  = Some (inject_Z w + inject_Z fv / inject_Z (10 ^ len f))%Q.
Proof.
  intros Hw Hne Hf. unfold parse_decimal.
  change ("." +:+ f) with (String "." f).
  rewrite (split_dot_digits _ _ _ _ (scan_utoa w Hw)). simpl.
  rewrite scan_unsigned_utoa by assumption. simpl.
  unfold scan_unsigned. destruct f; [contradiction|]. now rewrite Hf.
Qed.

Lemma scaled_value (w fv P K : Z) :
  0 < P ->
  ((inject_Z w + inject_Z fv / inject_Z P) * inject_Z (P * K)
   == inject_Z (w * (P * K) + fv * K))%Q.
Proof.
  intros HP. rewrite !inject_Z_plus, !inject_Z_mult. field.
  intros H. apply (eq_sym) in H. revert H. unfold Qeq. simpl. lia.
Qed.

Lemma scaled_whole (w P T : Z) :
  0 < P ->
  ((inject_Z w + inject_Z 0 / inject_Z P) * inject_Z T == inject_Z (w * T))%Q.
Proof.
  intros HP. rewrite !inject_Z_mult. field.
  intros H. apply (eq_sym) in H. revert H. unfold Qeq. simpl. lia.
Qed.

(** The two cases of [atomicToHuman] on a well-formed amount: a zero
    remainder prints the fixed fraction of six zeros; a remainder that is
    not zero, at two decimals or more, prints the padded remainder cut of
    trailing zeros down to two digits at least. *)
Lemma atomicToHuman_cases (raw : string) (A D : Z) :
  SetString raw = Some A -> 0 <= D ->
  (A mod 10 ^ D = 0 ->
     atomicToHuman raw D = Ok (big_String (A / 10 ^ D) +:+ ".000000")) /\
  (A mod 10 ^ D <> 0 -> 2 <= D ->
     exists f k,
       atomicToHuman raw D = Ok (big_String (A / 10 ^ D) +:+ "." +:+ f) /\
       f = spec_fraction D (A mod 10 ^ D) /\
       f +:+ repeat_char "0" k = Sprintf_0s D (big_String (A mod 10 ^ D)) /\
       len (f +:+ repeat_char "0" k) = D /\
       scan_digits (f +:+ repeat_char "0" k) 0 = Some (A mod 10 ^ D) /\
       2 <= len f /\
       (len f = 2 \/ TrimRight0 f = f)).
Proof.
  intros HA HD. rewrite (atomicToHuman_unfold raw A D HA HD). split.
  - intros ->. reflexivity.
  - intros Hr HD2. destruct (Z.eqb_spec (A mod 10 ^ D) 0) as [|_]; [contradiction|].
    pose proof (Z.mod_pos_bound A (10 ^ D) (pow10_pos D HD)) as Hb.
    destruct (padded_remainder D (A mod 10 ^ D) ltac:(lia) Hb) as [Hlen Hscan].
    set (fracStr := Sprintf_0s D (big_String (A mod 10 ^ D))) in *.
    destruct (keep_two_zeros fracStr) as (Hslice & [k Hk] & Hf2 & Hmin).
    { unfold len in Hlen. lia. }
    exists (keep_two fracStr), k. cbv zeta.
    rewrite Hk, Hslice. repeat split; try assumption.
    unfold keep_two. now destruct (_ <? 2).
Qed.

(** C2, as the code has it.  For a base-10 integer string [raw] of value
    [A] and a precision [D >= 0], [atomicToHuman] divides [A] by [10^D].
    When the remainder is zero the result is the quotient followed by the
    fixed fraction [.000000], whatever [D] is.  When the remainder is not
    zero and [D >= 2], the fraction [f] is the remainder padded with zeros
    to [D] digits, cut of trailing zeros only ([f] followed by zeros is the
    padded remainder), of two digits at least, and cut as far as that
    allows ([f] has two digits or does not end in a zero).  In particular
    "0" at 6 gives "0.000000" and "1000" at 6 gives "0.001". *)
Theorem atomicToHuman_format (raw : string) (A D : Z) :
  SetString raw = Some A -> 0 <= D ->
  (A mod 10 ^ D = 0 ->
     atomicToHuman raw D = Ok (big_String (A / 10 ^ D) +:+ ".000000")) /\
  (A mod 10 ^ D <> 0 -> 2 <= D ->
     exists f k,
       atomicToHuman raw D = Ok (big_String (A / 10 ^ D) +:+ "." +:+ f) /\
       f = spec_fraction D (A mod 10 ^ D) /\
       f +:+ repeat_char "0" k = Sprintf_0s D (big_String (A mod 10 ^ D)) /\
       len (f +:+ repeat_char "0" k) = D /\
       scan_digits (f +:+ repeat_char "0" k) 0 = Some (A mod 10 ^ D) /\
       2 <= len f /\
       (len f = 2 \/ TrimRight0 f = f)) /\
  atomicToHuman "0" 6 = Ok "0.000000" /\
  atomicToHuman "1000" 6 = Ok "0.001".
Proof.
  intros HA HD. destruct (atomicToHuman_cases raw A D HA HD) as [Hz Hf].
  repeat split; assumption || reflexivity.
Qed.

Lemma atomicToHuman_format_witness :
  atomicToHuman "1234500" 6 = Ok "1.2345" /\
  atomicToHuman "2000000" 6 = Ok "2.000000" /\
  atomicToHuman "1100000" 6 = Ok "1.10".
Proof.
  destruct (atomicToHuman_format "1234500" 1234500 6 eq_refl ltac:(lia))
    as (_ & H1 & _).
  destruct (H1 ltac:(discriminate) ltac:(lia)) as (f & k & -> & -> & _).
  destruct (atomicToHuman_format "2000000" 2000000 6 eq_refl ltac:(lia))
    as (H2 & _).
  rewrite (H2 eq_refl).
  destruct (atomicToHuman_format "1100000" 1100000 6 eq_refl ltac:(lia))
    as (_ & H3 & _).
  destruct (H3 ltac:(discriminate) ltac:(lia)) as (f' & k' & -> & -> & _).
  repeat split.
Defined.

(** C2, as the specification words it, fails where the remainder is zero.
    Two million atomic units at precision 6 print as "2.000000": the
    fraction of a whole amount is not trimmed to two digits.  And 500
    atomic units at precision 2 print as "5.000000" as well: the six zeros
    are those of the source, not the remainder padded to the precision. *)
Lemma toHuman_whole_amount_counterexample :
  atomicToHuman "2000000" 6 = Ok "2.000000" /\
  spec_toHuman 2000000 6 = "2.00" /\
  atomicToHuman "500" 2 = Ok "5.000000" /\
  spec_toHuman 500 2 = "5.00" /\
  atomicToHuman "2000000" 6 <> Ok (spec_toHuman 2000000 6) /\
  atomicToHuman "500" 2 <> Ok (spec_toHuman 500 2).
Proof. repeat split; discriminate. Qed.

(** Outside the use the program makes of the function (its one call
    passes the precision 6): at one decimal and a remainder that is not
    zero, the remainder padded to one digit cannot be cut to two, and the
    slice [fracStr[:2]] panics. *)
Theorem atomicToHuman_one_decimal_panics (raw : string) (A : Z) :
  SetString raw = Some A ->
  A mod 10 <> 0 ->
  atomicToHuman raw 1 = Panic "slice bounds out of range" /\
  forall s, atomicToHuman raw 1 <> Ok s.
Proof.
  intros HA Hr.
  assert (atomicToHuman raw 1 = Panic "slice bounds out of range") as ->;
    [|split; [reflexivity | discriminate]].
  rewrite (atomicToHuman_unfold raw A 1 HA) by lia.
  change (10 ^ 1) with 10.
  pose proof (Z.mod_pos_bound A 10 ltac:(lia)) as Hb.
  destruct (Z.eqb_spec (A mod 10) 0) as [|_]; [contradiction|].
  assert (A mod 10 = 1 \/ A mod 10 = 2 \/ A mod 10 = 3 \/ A mod 10 = 4 \/
          A mod 10 = 5 \/ A mod 10 = 6 \/ A mod 10 = 7 \/ A mod 10 = 8 \/
          A mod 10 = 9) as Hd by lia.
  repeat (destruct Hd as [-> | Hd]; [reflexivity|]). now rewrite Hd.
Qed.

Lemma atomicToHuman_reads_back (raw : string) (A D : Z) :
  SetString raw = Some A -> 0 <= A -> 0 <= D ->
  2 <= D \/ A mod 10 ^ D = 0 ->
  exists s q,
    atomicToHuman raw D = Ok s /\
    parse_decimal s = Some q /\
    (q * inject_Z (10 ^ D) == inject_Z A)%Q.
Proof.
  intros HA HA0 HD Hcase.
  pose proof (pow10_pos D HD) as Hpos.
  assert (0 <= A / 10 ^ D) as Hw by (apply Z.div_pos; lia).
  assert (big_String (A / 10 ^ D) = utoa (A / 10 ^ D)) as Hbs.
  { unfold big_String. destruct (Z.ltb_spec (A / 10 ^ D) 0); [lia | reflexivity]. }
  destruct (atomicToHuman_cases raw A D HA HD) as (Hzero & Hfrac).
  destruct (Z.eq_dec (A mod 10 ^ D) 0) as [Hr|Hr].
  - eexists _, _. split; [apply (Hzero Hr)|]. rewrite Hbs.
    change ".000000" with ("." +:+ "000000").
    split; [apply (parse_decimal_value _ 0); [assumption | discriminate | reflexivity]|].
    pose proof (Z.div_mod A (10 ^ D) ltac:(lia)) as Hdm.
    rewrite scaled_whole by (apply pow10_pos; unfold len; lia).
    now replace (A / 10 ^ D * 10 ^ D) with A by lia.
  - destruct Hcase as [HD2|]; [|contradiction].
    destruct (Hfrac Hr HD2) as (f & k & Hres & _ & _ & Hlen & Hscan & Hf2 & _).
    rewrite scan_digits_app in Hscan.
    destruct (scan_digits f 0) as [fv|] eqn:Hfv; [|discriminate].
    simpl in Hscan. rewrite scan_digits_zeros in Hscan. injection Hscan as Hval.
    exists (big_String (A / 10 ^ D) +:+ "." +:+ f). eexists. split; [exact Hres|].
    rewrite Hbs.
    split; [apply (parse_decimal_value _ fv); [assumption | | assumption]|].
    { intros ->. simpl in Hf2. unfold len in Hf2. simpl in Hf2. lia. }
    pose proof (Z.div_mod A (10 ^ D) ltac:(lia)) as Hdm.
    assert (10 ^ D = 10 ^ len f * 10 ^ Z.of_nat k) as HDk.
    { unfold len in *. rewrite length_app, length_repeat_char, Nat2Z.inj_add in Hlen.
      rewrite <- Z.pow_add_r by lia. now rewrite Hlen. }
    set (w := A / 10 ^ D) in *.
    assert (w * (10 ^ len f * 10 ^ Z.of_nat k) + fv * 10 ^ Z.of_nat k = A) as HAeq.
    { rewrite <- HDk. lia. }
    rewrite HDk, scaled_value by (apply pow10_pos; unfold len; lia).
    now rewrite HAeq.
Qed.

(** The round trip that does hold: for a non-negative amount, at a
    precision of two digits or more, or with a zero remainder at any
    precision, the string returned reads back as a rational number that,
    scaled by [10^D], is the amount. *)
Theorem atomicToHuman_round_trip (raw : string) (A D : Z) :
  SetString raw = Some A -> 0 <= A -> 0 <= D ->
  2 <= D \/ A mod 10 ^ D = 0 ->
  exists s q,
    atomicToHuman raw D = Ok s /\
    parse_decimal s = Some q /\
    (q * inject_Z (10 ^ D) == inject_Z A)%Q.
Proof.
  intros HA HA0 HD Hcase.
  destruct (atomicToHuman_reads_back raw A D HA HA0 HD Hcase) as (s & q & H).
  now exists s, q.
Qed.

Lemma atomicToHuman_round_trip_witness :
  exists s q,
    atomicToHuman "1100000" 6 = Ok s /\
    parse_decimal s = Some q /\
    (q * inject_Z (10 ^ 6) == inject_Z 1100000)%Q.
Proof.
  apply (atomicToHuman_round_trip "1100000" 1100000 6 eq_refl); lia.
Defined.

(** ** The balance query *)

Lemma SetString_utoa (n : Z) : 0 <= n -> SetString (big_String n) = Some n.
Proof.
  intros Hn. unfold big_String. destruct (Z.ltb_spec n 0); [lia|].
  pose proof (scan_unsigned_utoa n Hn) as Hs. pose proof (scan_utoa n Hn) as Hd.
  unfold SetString. destruct (utoa n) as [|c s] eqn:E; [assumption|].
  simpl in Hd. destruct (digit_val c) eqn:Ec; [|discriminate].
  destruct (Ascii.eqb_spec c "-") as [->|_]; [discriminate|].
  destruct (Ascii.eqb_spec c "+") as [->|_]; [discriminate|].
  destruct c as [[] [] [] [] [] [] [] []]; try assumption; discriminate.
Qed.

Lemma SetBytes_acc_nonneg (b : string) (acc : Z) : 0 <= acc -> 0 <= SetBytes_acc b acc.
Proof.
  revert acc. induction b as [|c b IH]; intros acc Hacc; simpl; [assumption|].
  apply IH. lia.
Qed.

(** A raw balance printed by [big.Int.String] always converts: at six
    decimals [atomicToHuman] neither panics nor reads an undefined value. *)
Lemma atomicToHuman_six (n : Z) :
  0 <= n -> exists human, atomicToHuman (big_String n) 6 = Ok human.
Proof.
  intros Hn.
  destruct (atomicToHuman_cases _ n 6 (SetString_utoa n Hn) ltac:(lia))
    as (Hz & Hf).
  destruct (Z.eq_dec (n mod 10 ^ 6) 0) as [E|E].
  - eexists. apply (Hz E).
  - destruct (Hf E ltac:(lia)) as (f & k & -> & _). now eexists.
Qed.

(** [queryUSDCBalance] always returns: whatever the endpoint answers, the
    decoding ends in a balance or in an error value. *)
Lemma decodeBalance_returns (reply : rpcReply) :
  exists humanBalance raw err, decodeBalance reply = Ok (humanBalance, raw, err).
Proof.
  destruct reply as [err| |result [message|]]; simpl; eauto.
  destruct (_ || _); eauto.
  destruct (hex_DecodeString _) as [b|]; eauto.
  destruct (atomicToHuman_six (SetBytes b)) as [human ->]; eauto.
  apply SetBytes_acc_nonneg. lia.
Qed.



(** ** The wallet command *)

#[local] Arguments String.append : simpl never.

Ltac run_monad :=
  cbv [mbind M_bind bind mret M_ret ret when emit update get os_Exit lift_go
       locals trace exit_code final].

(** One turn of the loop of [runWallet]: one entry more, the events of one
    query, and the loop goes on. *)
Lemma runWallet_body_step (w : world) (address : string) (jsonOutput : bool)
    (kv : string * networkInfo) (s : pstate walletResult) :
  runWallet_body w address jsonOutput kv s =
  Ret tt {| locals := append_Balance (network_entry w address kv) (locals s);
            trace := trace s ++ network_events w address jsonOutput kv |}.
Proof.
  destruct kv as [name info], s as [r tr].
  unfold runWallet_body, queryUSDCBalance, network_entry, network_events,
    balance_of, callData.
  cbn [fst snd].
  destruct (decodeBalance_returns
              (rpc_Post w (RPCURL info) (USDCContract info)
                 ("0x70a08231" +:+ Sprintf_0s 64 (TrimPrefix (ToLower address) "0x"))))
    as (h & raw & err & E).
  run_monad. rewrite E.
  destruct err as [e|], jsonOutput; cbn; rewrite <- ?app_assoc; reflexivity.
Qed.

Lemma for_range_runWallet (w : world) (address : string) (jsonOutput : bool)
    (l : list (string * networkInfo)) (s : pstate walletResult) :
  for_range l (runWallet_body w address jsonOutput) s =
  Ret tt {| locals := {| Address := Address (locals s);
                         Balances := Balances (locals s)
                                     ++ (network_entry w address <$> l);
                         WalletError := WalletError (locals s) |};
            trace := trace s ++ loop_events w address jsonOutput l |}.
Proof.
  revert s. induction l as [|kv l IH]; intros [r tr].
  - cbn. rewrite !app_nil_r. now destruct r.
  - cbn [for_range]. change (?m ;; ?k) with (bind m (fun _ => k)).
    unfold bind at 1. rewrite runWallet_body_step, IH. cbn.
    now rewrite <- !app_assoc.
Qed.

Lemma rpc_urls_app (tr1 tr2 : list event) :
  rpc_urls (tr1 ++ tr2) = (rpc_urls tr1 ++ rpc_urls tr2)%list.
Proof. apply omap_app. Qed.

Lemma rpc_urls_network_events (w : world) (address : string) (jsonOutput : bool)
    (l : list (string * networkInfo)) :
  rpc_urls (loop_events w address jsonOutput l) = (fun kv => RPCURL kv.2) <$> l.
Proof.
  induction l as [|kv l IH]; [reflexivity|].
  change (loop_events w address jsonOutput (kv :: l))
    with (network_events w address jsonOutput kv ++ loop_events w address jsonOutput l)%list.
  cbn [fmap list_fmap]. rewrite rpc_urls_app, IH. f_equal.
  unfold network_events. destruct jsonOutput; [reflexivity|].
  destruct (balance_of w kv.2 address) as [[[h raw] [e|]]| |]; reflexivity.
Qed.

Lemma emitted_wallet_network_events (w : world) (address : string) (jsonOutput : bool)
    (l : list (string * networkInfo)) :
  emitted_wallet (loop_events w address jsonOutput l) = [].
Proof.
  induction l as [|kv l IH]; [reflexivity|].
  change (loop_events w address jsonOutput (kv :: l))
    with (network_events w address jsonOutput kv ++ loop_events w address jsonOutput l)%list.
  unfold emitted_wallet in *. rewrite omap_app, IH.
  unfold network_events. destruct jsonOutput; [reflexivity|].
  destruct (balance_of w kv.2 address) as [[[h raw] [e|]]| |]; reflexivity.
Qed.

(** [runWallet] over a settled set of networks: it returns, with one entry
    for every network visited. *)
Lemma runWallet_query_run (w : world) (address : string) (jsonOutput : bool)
    (nets : gmap string networkInfo) (s : pstate walletResult) :
  let result := {| Address := Address (locals s);
                   Balances := Balances (locals s)
                               ++ (network_entry w address <$> range w nets);
                   WalletError := WalletError (locals s) |} in
  runWallet_query w address jsonOutput nets s =
  Ret tt {| locals := result;
            trace := trace s
                     ++ (if jsonOutput then []
                         else [Stdout ("Wallet:  " +:+ address +:+ nl +:+ nl)])
                     ++ loop_events w address jsonOutput (range w nets)
                     ++ (if jsonOutput then [EmitWalletJSON result] else []) |}.
Proof.
  destruct s as [r tr]. unfold runWallet_query.
  destruct jsonOutput; run_monad; cbn [negb]; rewrite for_range_runWallet; cbn.
  - now rewrite <- app_assoc.
  - now rewrite app_nil_r, <- app_assoc.
Qed.

(** C8.  A balance query over all configured networks, whatever order the
    map is visited in: the command returns (it neither exits nor crashes);
    the entries are those of the networks, one each, each made from the
    answer of its own network only; a network whose query fails has an
    entry with its name and chain, the balance "error", the decimals 0 and
    the error text as its raw value (the text of the transport failure, of
    an answer that is no JSON, of the error the endpoint reports, of a
    payload that is no hexadecimal numeral); a network whose query succeeds
    has the entry with its balance, its decimals and its raw value,
    whatever the others did; every RPC endpoint is called once; in JSON
    mode the one document emitted carries all the entries. *)
Theorem balances_isolated (w : world) (address : string) (jsonOut : bool) :
  range_visits_all w ->
  is_empty (EVM_PRIVATE_KEY w) = false ->
  NewClientSignerFromPrivateKey w (EVM_PRIVATE_KEY w) = inr address ->
  let o := run_wallet w EmptyString jsonOut in
  let entries := Balances (locals (final o)) in
  (exists st, o = Ret tt st) /\
  exit_code o = 0 /\
  entries = (network_entry w address <$> range w networks) /\
  EntryNetwork <$> entries ≡ₚ (map_to_list networks).*1 /\
  length entries = size networks /\
  (forall name info h raw e,
     networks !! name = Some info ->
     balance_of w info address = Ok (h, raw, Some e) ->
     {| EntryNetwork := name; EntryChainID := ChainID info; Asset := "USDC";
        Balance := "error"; EntryDecimals := 0; Raw := e |} ∈ entries) /\
  (forall name info reply,
     networks !! name = Some info ->
     rpc_Post w (RPCURL info) (USDCContract info) (callData address) = reply ->
     match reply with
     | PostFailed err =>
         {| EntryNetwork := name; EntryChainID := ChainID info; Asset := "USDC";
            Balance := "error"; EntryDecimals := 0;
            Raw := "rpc call failed: " +:+ err |} ∈ entries
     | InvalidJSON =>
         {| EntryNetwork := name; EntryChainID := ChainID info; Asset := "USDC";
            Balance := "error"; EntryDecimals := 0;
            Raw := "invalid rpc response" |} ∈ entries
     | Envelope _ (Some message) =>
         {| EntryNetwork := name; EntryChainID := ChainID info; Asset := "USDC";
            Balance := "error"; EntryDecimals := 0;
            Raw := "rpc error: " +:+ message |} ∈ entries
     | Envelope result None =>
         let hexStr := TrimPrefix result "0x" in
         is_empty hexStr || String.eqb hexStr "0" = false ->
         hex_DecodeString (padHexLeft hexStr) = None ->
         {| EntryNetwork := name; EntryChainID := ChainID info; Asset := "USDC";
            Balance := "error"; EntryDecimals := 0;
            Raw := "invalid hex: " +:+ hexStr |} ∈ entries
     end) /\
  (forall name info h raw,
     networks !! name = Some info ->
     balance_of w info address = Ok (h, raw, None) ->
     {| EntryNetwork := name; EntryChainID := ChainID info; Asset := "USDC";
        Balance := h; EntryDecimals := Decimals info; Raw := raw |} ∈ entries) /\
  rpc_urls (trace (final o)) ≡ₚ (fun kv => RPCURL kv.2) <$> map_to_list networks /\
  (jsonOut = true -> emitted_wallet (trace (final o)) = [locals (final o)]).
Proof.
  intros Hrange Hkey Hsigner o entries.
  assert (o = Ret tt (final o) /\
          entries = (network_entry w address <$> range w networks) /\
          rpc_urls (trace (final o)) = ((fun kv => RPCURL kv.2) <$> range w networks) /\
          (jsonOut = true -> emitted_wallet (trace (final o)) = [locals (final o)]))
    as (Ho & Hentries & Hurls & Hdoc).
  { subst entries o. unfold run_wallet, runWalletCmd. rewrite Hkey, Hsigner.
    unfold runWallet. cbn [is_empty]. run_monad.
    rewrite runWallet_query_run. cbn [locals trace Balances app].
    repeat split.
    - change (NewSigner (EVM_PRIVATE_KEY w) :: ?l)
        with ([NewSigner (EVM_PRIVATE_KEY w)] ++ l)%list.
      rewrite !rpc_urls_app, rpc_urls_network_events.
      destruct jsonOut; cbn; now rewrite app_nil_r.
    - intros ->.
      change (NewSigner (EVM_PRIVATE_KEY w) :: ?l)
        with ([NewSigner (EVM_PRIVATE_KEY w)] ++ l)%list.
      unfold emitted_wallet. rewrite !omap_app.
      fold (emitted_wallet (loop_events w address true (range w networks))).
      now rewrite emitted_wallet_network_events. }
  assert (forall name info, networks !! name = Some info ->
            network_entry w address (name, info) ∈ entries) as Hin.
  { intros name info Hl. rewrite Hentries. apply list_elem_of_fmap.
    exists (name, info). split; [reflexivity|].
    rewrite (Hrange networks). now apply elem_of_map_to_list. }
  repeat split.
  - eauto.
  - now rewrite Ho.
  - assumption.
  - rewrite Hentries, <- list_fmap_compose, (Hrange networks).
    erewrite list_fmap_ext; [reflexivity|]. intros i [name info] _.
    unfold network_entry. cbn.
    destruct (balance_of w info address) as [[[h raw] [e|]]| |]; reflexivity.
  - rewrite Hentries, length_fmap, (Hrange networks). apply length_map_to_list.
  - intros name info h raw e Hl Hb. specialize (Hin name info Hl).
    unfold network_entry in Hin. cbn in Hin. now rewrite Hb in Hin.
  - intros name info reply Hl Hb. specialize (Hin name info Hl).
    unfold network_entry, balance_of in Hin. cbn [fst snd] in Hin.
    rewrite Hb in Hin. destruct reply as [err| |result [message|]];
      try assumption.
    intros hexStr Hpay Hhex. subst hexStr. unfold decodeBalance in Hin.
    now rewrite Hpay, Hhex in Hin.
  - intros name info h raw Hl Hb. specialize (Hin name info Hl).
    unfold network_entry in Hin. cbn in Hin. now rewrite Hb in Hin.
  - now rewrite Hurls, (Hrange networks).
  - assumption.
Qed.

Lemma sample_range_visits_all (key : string) (resp : response) (answer : string) :
  range_visits_all (sample_world key resp answer).
Proof. intros m. reflexivity. Qed.

Lemma balances_isolated_witness :
  let o := run_wallet (sample_world "0x01" (sample_response 402 EmptyString EmptyString) "y")
             EmptyString true in
  exit_code o = 0 /\
  {| EntryNetwork := "base-sepolia"; EntryChainID := "eip155:84532";
     Asset := "USDC"; Balance := "error"; EntryDecimals := 0;
     Raw := "rpc call failed: timeout" |} ∈ Balances (locals (final o)) /\
  {| EntryNetwork := "base"; EntryChainID := "eip155:8453";
     Asset := "USDC"; Balance := "1.000000"; EntryDecimals := 6;
     Raw := "1000000" |} ∈ Balances (locals (final o)).
Proof.
  pose proof (balances_isolated
                (sample_world "0x01" (sample_response 402 EmptyString EmptyString) "y")
                "0xe312C88D2102f1eE75aBD221cA9dc72Db406ae4A" true
                (sample_range_visits_all _ _ _) eq_refl eq_refl)
    as (_ & Hexit & _ & _ & _ & _ & Herr & Hok & _).
  split; [exact Hexit|]. split.
  - exact (Herr "base-sepolia" _ _ eq_refl eq_refl).
  - exact (Hok "base" _ "1.000000" "1000000" eq_refl eq_refl).
Defined.

(** C4, at the input where the code fails.  A wallet query that names a
    network missing from the registry is reported before any RPC call (on
    the diagnostic stream, or in the error field of the one document of the
    JSON mode), but [runWallet] then returns, [main] returns with it, and
    the process ends with exit code 0, not with a non-zero one. *)
Theorem unknown_network_exits_zero (w : world) (network address : string)
    (jsonOut : bool) :
  is_empty (EVM_PRIVATE_KEY w) = false ->
  NewClientSignerFromPrivateKey w (EVM_PRIVATE_KEY w) = inr address ->
  is_empty network = false ->
  networks !! network = None ->
  let o := run_wallet w network jsonOut in
  exit_code o = 0 /\
  rpc_urls (trace (final o)) = [] /\
  (jsonOut = true ->
     emitted_wallet (trace (final o))
     = [ {| Address := address; Balances := [];
            WalletError := "unknown network: " +:+ network |} ]) /\
  (jsonOut = false ->
     Stderr ("Unknown network: " +:+ network +:+ nl) ∈ trace (final o)).
Proof.
  intros Hkey Hsigner Hnet Hlookup o. subst o.
  unfold run_wallet, runWalletCmd. rewrite Hkey, Hsigner.
  unfold runWallet. rewrite Hnet, Hlookup.
  destruct jsonOut; run_monad; cbn [app]; repeat split; try discriminate; intros _.
  apply list_elem_of_further, list_elem_of_here.
Qed.

Lemma unknown_network_exits_zero_witness :
  let o := run_wallet (sample_world "0x01" (sample_response 402 EmptyString EmptyString) "y")
             "solana" true in
  exit_code o = 0 /\
  WalletError <$> emitted_wallet (trace (final o)) = ["unknown network: solana"].
Proof.
  pose proof (unknown_network_exits_zero
                (sample_world "0x01" (sample_response 402 EmptyString EmptyString) "y")
                "solana" "0xe312C88D2102f1eE75aBD221cA9dc72Db406ae4A" true
                eq_refl eq_refl eq_refl eq_refl)
    as (Hexit & _ & Hdoc & _).
  split; [exact Hexit|]. cbv zeta. now rewrite (Hdoc eq_refl).
Defined.

(** ** Zero balances *)

Lemma hex_DecodeString_zeros (m : nat) :
  hex_DecodeString (repeat_char "0" (2 * m)) = Some (repeat_char "000"%char m).
Proof.
  induction m as [|m IH]; [reflexivity|].
  replace (2 * S m)%nat with (S (S (2 * m))) by lia.
  cbn [repeat_char hex_DecodeString]. rewrite IH. reflexivity.
Qed.

Lemma SetBytes_zeros (m : nat) : SetBytes (repeat_char "000"%char m) = 0.
Proof. unfold SetBytes. induction m as [|m IH]; [reflexivity | exact IH]. Qed.

Lemma padHexLeft_zeros (k : nat) :
  exists m, padHexLeft (repeat_char "0" k) = repeat_char "0" (2 * m).
Proof.
  unfold padHexLeft. rewrite length_repeat_char.
  pose proof (Nat.div_mod_eq k 2) as Hk.
  pose proof (Nat.mod_upper_bound k 2 ltac:(lia)) as Hb.
  destruct (Nat.eqb_spec (k mod 2) 0) as [E|E].
  - exists (k / 2)%nat. f_equal. lia.
  - exists (S (k / 2))%nat. change (String "0" (repeat_char "0" k))
      with (repeat_char "0" (S k)). f_equal. lia.
Qed.

(** C9, with the inputs where the code fails.  For every payload of zeros
    (what is left of the result once the 0x prefix is stripped is [k]
    zeros, [k] from 0 on) the query returns the raw value "0" and no error.
    Its human-readable string is "0.000000", the conversion of atomic "0",
    only when the payload has two digits or more: the empty payload and
    the payload "0" take the early return and come back with the string
    "0". *)
Theorem zero_payload_human_balance (result : string) (k : nat) :
  TrimPrefix result "0x" = repeat_char "0" k ->
  decodeBalance (Envelope result None)
  = Ok (if (k <=? 1)%nat then "0" else "0.000000", "0", None) /\
  atomicToHuman "0" 6 = Ok "0.000000".
Proof.
  intros H. split; [|reflexivity]. unfold decodeBalance. rewrite H.
  destruct k as [|[|k]]; [reflexivity | reflexivity |].
  cbn [is_empty repeat_char String.eqb orb Nat.leb].
  replace (String.eqb (String "0" (String "0" (repeat_char "0" k))) "0")
    with false by (simpl; now destruct (repeat_char "0" k)).
  destruct (padHexLeft_zeros (S (S k))) as [m Hm]. cbn [repeat_char] in Hm.
  rewrite Hm, hex_DecodeString_zeros, SetBytes_zeros. reflexivity.
Qed.

Lemma zero_payload_human_balance_witness :
  decodeBalance (Envelope "0x" None) = Ok ("0", "0", None) /\
  decodeBalance (Envelope "0x0" None) = Ok ("0", "0", None) /\
  decodeBalance
    (Envelope "0x0000000000000000000000000000000000000000000000000000000000000000"
       None)
  = Ok ("0.000000", "0", None).
Proof.
  split; [exact (proj1 (zero_payload_human_balance "0x" 0 eq_refl))|].
  split; [exact (proj1 (zero_payload_human_balance "0x0" 1 eq_refl))|].
  exact (proj1 (zero_payload_human_balance
                  "0x0000000000000000000000000000000000000000000000000000000000000000"
                  64 eq_refl)).
Defined.

(** ** Invariants of a process

    A relation between the state a computation starts in and the state it
    ends in (by returning or by exiting) that is reflexive and transitive
    holds of a whole computation when it holds of its steps. *)

Section Invariants.
Context {R : Type} (I : relation (pstate R)) `{!PreOrder I}.

Lemma preserves_ret {A} (a : A) : preserves I (mret a).
Proof. intros s. reflexivity. Qed.

Lemma preserves_exit {A} (code : Z) : preserves I (os_Exit (A := A) code).
Proof. intros s. reflexivity. Qed.

Lemma preserves_get : preserves I get.
Proof. intros s. reflexivity. Qed.

Lemma preserves_bind {A B} (m : M R A) (k : A -> M R B) :
  preserves I m -> (forall a, preserves I (k a)) -> preserves I (m ≫= k).
Proof.
  intros Hm Hk s. specialize (Hm s). unfold mbind, M_bind, bind.
  destruct (m s) as [a s'|code s']; cbn in *; [|assumption].
  etransitivity; [exact Hm | apply Hk].
Qed.

Lemma preserves_when (b : bool) (m : M R unit) :
  preserves I m -> preserves I (when b m).
Proof. destruct b; [trivial | intros _; apply preserves_ret]. Qed.

Lemma preserves_if {A} (b : bool) (m1 m2 : M R A) :
  preserves I m1 -> preserves I m2 -> preserves I (if b then m1 else m2).
Proof. now destruct b. Qed.

Lemma preserves_option {A B} (o : option B) (m1 : B -> M R A) (m2 : M R A) :
  (forall b, preserves I (m1 b)) -> preserves I m2 ->
  preserves I (match o with Some b => m1 b | None => m2 end).
Proof. now destruct o. Qed.

Lemma preserves_sum {A B C} (x : B + C) (m1 : B -> M R A) (m2 : C -> M R A) :
  (forall b, preserves I (m1 b)) -> (forall c, preserves I (m2 c)) ->
  preserves I (match x with inl b => m1 b | inr c => m2 c end).
Proof. now destruct x. Qed.
End Invariants.

#[local] Instance same_Probe_preorder : PreOrder same_Probe.
Proof. split; [now intros s | intros s1 s2 s3 H1 H2; unfold same_Probe in *; congruence]. Qed.

Lemma same_Probe_emit (e : event) : preserves same_Probe (emit e).
Proof. now intros s. Qed.

Lemma same_Probe_Status (v : string) : preserves same_Probe (update (set_Status v)).
Proof. now intros s. Qed.

Lemma same_Probe_Error (v : string) : preserves same_Probe (update (set_Error v)).
Proof. now intros s. Qed.

Lemma same_Probe_Payment (v : payResult) : preserves same_Probe (update (set_Payment v)).
Proof. now intros s. Qed.

Create HintDb keeps discriminated.
#[local] Hint Resolve preserves_ret preserves_exit preserves_get preserves_bind
  preserves_when preserves_if preserves_option preserves_sum
  same_Probe_emit same_Probe_Status same_Probe_Error same_Probe_Payment : keeps.

Ltac keeps := repeat first
  [ progress intros
  | lazymatch goal with |- PreOrder _ => exact _ end
  | apply preserves_bind | apply preserves_when | apply preserves_if
  | apply preserves_option | apply preserves_sum
  | apply preserves_ret | apply preserves_exit | apply preserves_get
  | solve [eauto with keeps] ].

Lemma same_Probe_exitJSON {A} (w : world) (result : jsonResult) (code : Z) :
  preserves same_Probe (exitJSON (A := A) w result code).
Proof. unfold exitJSON. keeps. Qed.

Lemma same_Probe_saveOutput (w : world) (outputFile body : string) :
  preserves same_Probe (saveOutput w outputFile body).
Proof. unfold saveOutput. keeps. Qed.

Lemma same_Probe_printBase64Header (name value : string) :
  preserves same_Probe (printBase64Header name value).
Proof. unfold printBase64Header. keeps. Qed.

#[local] Hint Resolve same_Probe_exitJSON same_Probe_saveOutput
  same_Probe_printBase64Header : keeps.

Lemma same_Probe_main_payment (fl : flags) (w : world) (human : bool)
    (address : string) (resp2 : response) :
  preserves same_Probe (main_payment fl w human address resp2).
Proof. unfold main_payment. keeps. Qed.

#[local] Hint Resolve same_Probe_main_payment : keeps.

Lemma same_Probe_main_step2 (fl : flags) (w : world) (human : bool) (method : string) :
  preserves same_Probe (main_step2 fl w human method).
Proof. unfold main_step2. keeps. Qed.

#[local] Hint Resolve same_Probe_main_step2 : keeps.

(** Nothing after Step 1 touches the probe result. *)
Lemma same_Probe_main_classify (fl : flags) (w : world) (human : bool)
    (method : string) (StatusCode : Z) (body : string) :
  preserves same_Probe (main_classify fl w human method StatusCode body).
Proof. unfold main_classify. keeps. Qed.

(** ** The probe *)

Ltac run_main_monad :=
  cbv [mbind M_bind bind mret M_ret ret when emit update get os_Exit
       locals trace exit_code final exitJSON saveOutput printBase64Header
       negb andb orb].

(** Case analysis along the control flow: the scrutinee that blocks the
    computation is split, until the run has ended. *)
Ltac case_run :=
  repeat (run_main_monad;
          match goal with
          | |- context [match ?x with _ => _ end] =>
              lazymatch x with
              | context [match _ with _ => _ end] => fail
              | _ => destruct x eqn:?
              end
          end);
  run_main_monad.

Lemma step1_trace_app (tr1 tr2 : list event) :
  step1_trace tr1 -> step1_trace tr2 -> step1_trace (tr1 ++ tr2).
Proof.
  intros (H1 & H2 & H3) (H1' & H2' & H3'). unfold step1_trace, emitted in *.
  now rewrite !existsb_app, omap_app, H1, H2, H3, H1', H2', H3'.
Qed.

(** Up to the arrival of the probe response. *)
Lemma run_main_probed (fl : flags) (w : world) (resp : response) :
  probed fl w resp ->
  exists s1,
    run_main fl w
    = main_probe fl w (human_mode fl) (effective_method fl) resp s1 /\
    locals s1 = {| Version := version w; Endpoint := endpoint fl;
                   Method := effective_method fl; Status := EmptyString;
                   Probe := None; Payment := None; Error := EmptyString |} /\
    step1_trace (trace s1).
Proof.
  intros (Hver & Hurl & Hreq & Hdo). unfold run_main, main.
  fold (effective_method fl). fold (human_mode fl).
  rewrite Hver, Hurl, Hreq, Hdo.
  destruct (human_mode fl), (verbose fl); run_main_monad; cbn [andb app];
    (eexists; split; [reflexivity|]; split; [reflexivity|]; now repeat split).
Qed.

(** Lines 235 to 255: the probe result is built and stored; nothing here
    exits, records an error or writes to the diagnostic stream, whatever
    the header holds. *)
Lemma main_build_probe_run (fl : flags) (human : bool) (resp : response)
    (s : pstate jsonResult) :
  exists tr,
    main_build_probe fl human resp s
    = Ret tt {| locals := set_Probe (probe_outcome resp) (locals s);
                trace := trace s ++ tr |} /\
    step1_trace tr.
Proof.
  destruct s as [r tr0]. unfold main_build_probe, probe_outcome, set_ProbeBody,
    set_PaymentRequirements. run_main_monad.
  destruct (is_empty (Header_Get resp "PAYMENT-REQUIRED")),
    (base64_DecodeString (Header_Get resp "PAYMENT-REQUIRED")),
    human, (jsonOutput fl), (verbose fl);
    run_main_monad; cbn [negb app];
    rewrite <- ?app_assoc; cbn [app];
    try (eexists; split; [reflexivity | now repeat split]);
    (exists []; rewrite app_nil_r; split; [reflexivity | now repeat split]).
Qed.

(** From the probe response to the classification of its status. *)
Lemma run_main_classify (fl : flags) (w : world) (resp : response) :
  probed fl w resp ->
  exists s2,
    run_main fl w
    = main_classify fl w (human_mode fl) (effective_method fl)
        (RespStatusCode resp) (RespBody resp) s2 /\
    locals s2 = {| Version := version w; Endpoint := endpoint fl;
                   Method := effective_method fl; Status := EmptyString;
                   Probe := Some (probe_outcome resp); Payment := None;
                   Error := EmptyString |} /\
    step1_trace (trace s2).
Proof.
  intros Hp. destruct (run_main_probed fl w resp Hp) as (s1 & -> & Hloc & Htr).
  unfold main_probe.
  set (s1' := final (when (verbose fl && human_mode fl)
                       (emit (DumpResponse (RespStatusCode resp) (RespBody resp))) s1)).
  assert (when (verbose fl && human_mode fl)
            (emit (DumpResponse (RespStatusCode resp) (RespBody resp))) s1
          = Ret tt s1' /\ locals s1' = locals s1 /\ step1_trace (trace s1'))
    as (Hdump & Hloc' & Htr').
  { subst s1'. destruct s1 as [r1 tr1].
    destruct (verbose fl && human_mode fl); cbn;
      (split; [reflexivity | split; [reflexivity|]]); [|assumption].
    apply step1_trace_app; [assumption | now repeat split]. }
  destruct (main_build_probe_run fl (human_mode fl) resp s1') as (tr & Hbuild & Htr2).
  eexists. split.
  - unfold mbind, M_bind, bind. rewrite Hdump. cbv beta iota.
    rewrite Hbuild. reflexivity.
  - cbn [locals trace]. rewrite Hloc', Hloc. split; [reflexivity|].
    now apply step1_trace_app.
Qed.

Ltac trace_facts :=
  unfold emitted;
  rewrite ?existsb_app, ?omap_app;
  repeat match goal with
         | H : existsb _ _ = false |- _ => rewrite H
         | H : emitted _ = [] |- _ => unfold emitted in H; rewrite H
         | H : marshals _ _ = _ |- _ => rewrite H
         end;
  cbn.

(** C1.  A probe answered with status 200: the run ends with exit code 3
    and the final status "free", whatever the credential in the
    environment is (the world [w] is arbitrary); neither the signer nor
    the paid request is reached, and in JSON mode the one document emitted
    is that result, with the status "free" (when the result cannot be
    marshalled, an empty line takes the place of the document and nothing
    is emitted). *)
Theorem free_route_exit (fl : flags) (w : world) (resp : response) :
  probed fl w resp ->
  RespStatusCode resp = StatusOK ->
  let o := run_main fl w in
  exit_code o = ExitFreeRoute /\
  Status (locals (final o)) = "free" /\
  existsb is_payment_event (trace (final o)) = false /\
  (jsonOutput fl = true ->
     emitted (trace (final o))
     = (if marshals w (locals (final o)) then [locals (final o)] else [])).
Proof.
  intros Hp Hcode o. subst o.
  destruct (run_main_classify fl w resp Hp) as ([r2 tr2] & -> & Hloc & Hpay & Herr & Hdoc).
  cbn [locals trace] in *. subst r2. rewrite Hcode.
  unfold main_classify, human_mode.
  change (StatusOK =? StatusPaymentRequired) with false.
  change (StatusOK =? StatusOK) with true.
  destruct (jsonOutput fl), (quiet fl); case_run; cbn [negb andb];
    (split; [reflexivity|]; split; [reflexivity|]; split;
     [trace_facts; reflexivity|]); intros Hj; try discriminate;
    trace_facts; reflexivity.
Qed.

Lemma free_route_exit_witness :
  exit_code (run_main (sample_flags false false true false)
               (sample_world EmptyString (sample_response 200 EmptyString "ok") "n")) = 3 /\
  exit_code (run_main (sample_flags false false false false)
               (sample_world "0x01" (sample_response 200 EmptyString "ok") "n")) = 3.
Proof.
  split.
  - apply (free_route_exit (sample_flags false false true false)
             (sample_world EmptyString (sample_response 200 EmptyString "ok") "n")
             (sample_response 200 EmptyString "ok")); repeat split.
  - apply (free_route_exit (sample_flags false false false false)
             (sample_world "0x01" (sample_response 200 EmptyString "ok") "n")
             (sample_response 200 EmptyString "ok")); repeat split.
Defined.

(** C6.  A probe answered with status 402 under the skip flag: the run
    stops with the final status "payment_required" and exit code 0; no
    signer is constructed, no paid request is made, and the result has no
    payment outcome. *)
Theorem skip_verify_stops (fl : flags) (w : world) (resp : response) :
  probed fl w resp ->
  RespStatusCode resp = StatusPaymentRequired ->
  skipVerify fl = true ->
  let o := run_main fl w in
  exit_code o = ExitSuccess /\
  Status (locals (final o)) = "payment_required" /\
  existsb is_payment_event (trace (final o)) = false /\
  Payment (locals (final o)) = None.
Proof.
  intros Hp Hcode Hskip o. subst o.
  destruct (run_main_classify fl w resp Hp) as ([r2 tr2] & -> & Hloc & Hpay & Herr & Hdoc).
  cbn [locals trace] in *. subst r2. rewrite Hcode.
  unfold main_classify, human_mode. rewrite Hskip.
  change (StatusPaymentRequired =? StatusPaymentRequired) with true.
  destruct (jsonOutput fl), (quiet fl); case_run; cbn [negb andb];
    (split; [reflexivity|]; split; [reflexivity|]; split;
     [trace_facts; reflexivity | reflexivity]).
Qed.

Lemma skip_verify_stops_witness :
  let o := run_main (sample_flags true false true false)
             (sample_world "0x01" (sample_response 402 "e30=" "{}") "n") in
  exit_code o = 0 /\ Status (locals (final o)) = "payment_required".
Proof.
  pose proof (skip_verify_stops (sample_flags true false true false)
                (sample_world "0x01" (sample_response 402 "e30=" "{}") "n")
                (sample_response 402 "e30=" "{}")
                ltac:(repeat split) eq_refl eq_refl) as (H1 & H2 & _).
  exact (conj H1 H2).
Defined.

(** C5, as the code has it.  A probe answered with status 402, no skip
    flag, an empty credential, and a dry-run prompt that lets the run
    through (no dry run, or auto-confirmation, or in text mode an answer
    that starts with y): the run fails with exit code 1 before any signer
    is constructed and before any paid request; the error is in the
    result, which is the one document of the JSON mode (when it cannot be
    marshalled, an empty line takes its place), or it is on the diagnostic
    stream in text mode. *)
Theorem missing_credential_fails (fl : flags) (w : world) (resp : response) :
  probed fl w resp ->
  RespStatusCode resp = StatusPaymentRequired ->
  skipVerify fl = false ->
  is_empty (EVM_PRIVATE_KEY w) = true ->
  dryRun fl && negb (autoYes fl) = false
  \/ (jsonOutput fl = false /\ confirms w = true) ->
  let o := run_main fl w in
  exit_code o = ExitError /\
  existsb is_payment_event (trace (final o)) = false /\
  Payment (locals (final o)) = None /\
  (jsonOutput fl = true ->
     Status (locals (final o)) = "error" /\
     Error (locals (final o)) = "EVM_PRIVATE_KEY is required for Step 2 (payment)" /\
     emitted (trace (final o))
     = (if marshals w (locals (final o)) then [locals (final o)] else [])) /\
  (jsonOutput fl = false ->
     Stderr (nl +:+ "Error: EVM_PRIVATE_KEY is required for Step 2 (payment)."
               +:+ nl) ∈ trace (final o)).
Proof.
  intros Hp Hcode Hskip Hkey Hgate o. subst o.
  destruct (run_main_classify fl w resp Hp) as ([r2 tr2] & -> & Hloc & Hpay & Herr & Hdoc).
  cbn [locals trace] in *. subst r2. rewrite Hcode.
  unfold main_classify, main_step2, human_mode. rewrite Hskip, Hkey.
  fold (confirms w).
  change (StatusPaymentRequired =? StatusPaymentRequired) with true.
  destruct Hgate as [Hg | [Hj Hc]]; [rewrite Hg | rewrite Hj, Hc];
    case_run;
    (split; [reflexivity|]; split; [trace_facts; reflexivity|];
     split; [reflexivity|]; split; intros Hjson; try discriminate;
     first [ split; [reflexivity|]; split; [reflexivity|];
             trace_facts; reflexivity
           | set_solver ]).
Qed.

Lemma missing_credential_fails_witness :
  exit_code (run_main (sample_flags false false true false)
               (sample_world EmptyString (sample_response 402 "e30=" "{}") "n")) = 1 /\
  exit_code (run_main (sample_flags false true false false)
               (sample_world EmptyString (sample_response 402 "e30=" "{}") "yes")) = 1.
Proof.
  split.
  - exact (proj1 (missing_credential_fails (sample_flags false false true false)
             (sample_world EmptyString (sample_response 402 "e30=" "{}") "n")
             (sample_response 402 "e30=" "{}")
             ltac:(repeat split) eq_refl eq_refl eq_refl (or_introl eq_refl))).
  - exact (proj1 (missing_credential_fails (sample_flags false true false false)
             (sample_world EmptyString (sample_response 402 "e30=" "{}") "yes")
             (sample_response 402 "e30=" "{}")
             ltac:(repeat split) eq_refl eq_refl eq_refl
             (or_intror (conj eq_refl eq_refl)))).
Defined.

(** C5, as the specification words it, fails at the dry-run prompt: with
    status 402, no skip flag and no credential, a dry run in JSON mode
    ends with the status "payment_required" and exit code 0. *)
Lemma missing_credential_dry_run_counterexample :
  let fl := sample_flags false true true false in
  let resp := sample_response 402 "e30=" "{}" in
  let w := sample_world EmptyString resp "n" in
  probed fl w resp /\
  RespStatusCode resp = StatusPaymentRequired /\
  skipVerify fl = false /\
  is_empty (EVM_PRIVATE_KEY w) = true /\
  exit_code (run_main fl w) = 0 /\
  Status (locals (final (run_main fl w))) = "payment_required".
Proof. repeat split. Qed.

(** ** The payment-requirements header *)





(** Before the paid request the result marshals exactly when the bytes
    decoded from the payment-requirements header, if there are any, are a
    JSON text. *)
Lemma marshals_probe (w : world) (r : jsonResult) (p : probeResult) :
  Probe r = Some p -> Payment r = None ->
  marshals w r = raw_valid w (PaymentRequirements p).
Proof.
  unfold marshals. intros -> ->. cbn. apply andb_true_r.
Qed.

(** C10, with the input where the code fails.  Whatever the status of the
    probe response, a payment-requirements header that is there and
    decodes is attached to the probe outcome of the result.  For a response
    with another status than 402 in JSON mode, the one document emitted is
    that result, with a probe that says no payment required and carries the
    decoded requirements, when the decoded bytes are a JSON text.  When they
    are not, [json.MarshalIndent] fails on them, [exitJSON] drops the error,
    and the run prints an empty line and no document at all; the exit code
    is the same in both cases. *)
Theorem requirements_attached_any_status (fl : flags) (w : world)
    (resp : response) (d : string) :
  probed fl w resp ->
  is_empty (Header_Get resp "PAYMENT-REQUIRED") = false ->
  base64_DecodeString (Header_Get resp "PAYMENT-REQUIRED") = Some d ->
  let o := run_main fl w in
  (exists p, Probe (locals (final o)) = Some p /\
             PaymentRequirements p = Some d /\
             PaymentRequired p = (RespStatusCode resp =? StatusPaymentRequired)) /\
  (RespStatusCode resp <> StatusPaymentRequired ->
   jsonOutput fl = true ->
   exit_code o = (if RespStatusCode resp =? StatusOK then ExitFreeRoute
                  else ExitSuccess) /\
   if json_Valid w d
   then exists p, emitted (trace (final o)) = [locals (final o)] /\
                  Probe (locals (final o)) = Some p /\
                  PaymentRequired p = false /\
                  PaymentRequirements p = Some d
   else emitted (trace (final o)) = [] /\
        last (trace (final o)) = Some (Stdout nl)).
Proof.
  intros Hp Hne Hdec o. subst o.
  assert (PaymentRequirements (probe_outcome resp) = Some d) as Hreq.
  { cbn. now rewrite Hne. }
  destruct (run_main_classify fl w resp Hp) as ([r2 tr2] & -> & Hloc & Hpay & Herr & Hdoc).
  cbn [locals trace] in *. split.
  - exists (probe_outcome resp).
    rewrite (same_Probe_main_classify fl w _ _ _ _ {| locals := r2; trace := tr2 |}).
    cbn [locals]. rewrite Hloc. now repeat split.
  - intros Hcode Hjson.
    subst r2. unfold main_classify, human_mode. rewrite Hjson.
    destruct (Z.eqb_spec (RespStatusCode resp) StatusPaymentRequired) as [|_];
      [contradiction|].
    assert (PaymentRequired (probe_outcome resp) = false) as Hfalse.
    { cbn. now destruct (Z.eqb_spec (RespStatusCode resp) StatusPaymentRequired). }
    destruct (json_Valid w d) eqn:Hvalid;
      (destruct (RespStatusCode resp =? StatusOK); case_run;
       repeat match goal with
              | H : marshals ?w0 ?r0 = _ |- _ =>
                  rewrite (marshals_probe w0 r0 (probe_outcome resp) eq_refl eq_refl),
                    Hreq in H;
                  cbn [raw_valid] in H; rewrite Hvalid in H;
                  first [discriminate H | clear H]
              end;
       (split; [reflexivity|]);
       first [ exists (probe_outcome resp);
               split; [trace_facts; reflexivity | now repeat split]
             | split; [trace_facts; reflexivity | apply last_snoc] ]).
Qed.

Lemma requirements_attached_any_status_witness :
  let fl := sample_flags false false true false in
  let resp := sample_response 404 "bm90IGpzb24=" "not found" in
  let o := run_main fl (sample_world EmptyString resp "n") in
  (exists p, Probe (locals (final o)) = Some p /\
             PaymentRequirements p = Some "not json") /\
  exit_code o = 0 /\
  emitted (trace (final o)) = [] /\
  last (trace (final o)) = Some (Stdout nl).
Proof.
  destruct (requirements_attached_any_status (sample_flags false false true false)
              (sample_world EmptyString
                 (sample_response 404 "bm90IGpzb24=" "not found") "n")
              (sample_response 404 "bm90IGpzb24=" "not found") "not json"
              ltac:(repeat split) eq_refl eq_refl) as ((p & Hp & Hreq & _) & Hlost).
  destruct (Hlost ltac:(discriminate) eq_refl) as (Hexit & Hnone & Hlast).
  split; [exists p; exact (conj Hp Hreq)|].
  exact (conj Hexit (conj Hnone Hlast)).
Defined.

(** * Further properties *)

(** ** Before the probe *)

(** A version query, a missing URL and a request that cannot be built end
    the run before anything is sent: the trace has no network call.  The
    version query exits with 0 and comes first; the two input errors exit
    with 1. *)
Theorem input_errors_before_network (fl : flags) (w : world) :
  showVer fl = true \/ is_empty (endpoint fl) = true
  \/ NewRequest w (effective_method fl) (endpoint fl) <> None ->
  let o := run_main fl w in
  network_calls (trace (final o)) = [] /\
  existsb is_payment_event (trace (final o)) = false /\
  exit_code o = (if showVer fl then ExitSuccess else ExitError) /\
  Probe (locals (final o)) = None.
Proof.
  intros H o. subst o. unfold run_main, main. fold (effective_method fl).
  destruct (showVer fl) eqn:Hver.
  - destruct (jsonOutput fl); now case_run.
  - destruct (is_empty (endpoint fl)) eqn:Hurl.
    + destruct (jsonOutput fl); now case_run.
    + destruct H as [H | [H | H]]; try discriminate.
      destruct (NewRequest w (effective_method fl) (endpoint fl)) as [err|];
        [|contradiction].
      destruct (jsonOutput fl), (quiet fl); now case_run.
Qed.

Lemma input_errors_before_network_witness :
  let o := run_main {| insecure := false; timeout := 30; method := "GET";
                       showVer := false; skipVerify := false; data := EmptyString;
                       verbose := false; dryRun := false; jsonOutput := true;
                       autoYes := false; quiet := false; outputFile := EmptyString;
                       headers := []; endpoint := EmptyString |}
             (sample_world "0x01" (sample_response 402 "e30=" "{}") "n") in
  network_calls (trace (final o)) = [] /\ exit_code o = 1.
Proof.
  pose proof (input_errors_before_network
                {| insecure := false; timeout := 30; method := "GET";
                   showVer := false; skipVerify := false; data := EmptyString;
                   verbose := false; dryRun := false; jsonOutput := true;
                   autoYes := false; quiet := false; outputFile := EmptyString;
                   headers := []; endpoint := EmptyString |}
                (sample_world "0x01" (sample_response 402 "e30=" "{}") "n")
                (or_intror (or_introl eq_refl))) as (H1 & _ & H2 & _).
  exact (conj H1 H2).
Defined.

(** A transport error on the probe ends the run with exit code 1: the
    probe request is the only network call, there is no probe outcome, no
    signer and no paid request, and in JSON mode the one document has the
    status "error" and the text of the transport error. *)
Theorem probe_transport_error (fl : flags) (w : world) (err : string) :
  showVer fl = false ->
  is_empty (endpoint fl) = false ->
  NewRequest w (effective_method fl) (endpoint fl) = None ->
  plainClient_Do w (effective_method fl) (endpoint fl) (data fl) (headers fl)
    = inl err ->
  let o := run_main fl w in
  exit_code o = ExitError /\
  network_calls (trace (final o))
  = [PlainDo (effective_method fl) (endpoint fl) (data fl) (headers fl)] /\
  existsb is_payment_event (trace (final o)) = false /\
  Probe (locals (final o)) = None /\
  (jsonOutput fl = true ->
     exists r, emitted (trace (final o)) = [r] /\
               Status r = "error" /\ Error r = err /\ Probe r = None) /\
  (jsonOutput fl = false ->
     Stderr ("Error: " +:+ err +:+ nl) ∈ trace (final o)).
Proof.
  intros Hver Hurl Hreq Hdo o. subst o. unfold run_main, main.
  fold (effective_method fl). rewrite Hver, Hurl, Hreq, Hdo.
  destruct (jsonOutput fl), (quiet fl), (verbose fl); case_run;
    (do 4 (split; [reflexivity|]); split; intros Hj; try discriminate;
     first [ eexists; now repeat split | set_solver ]).
Qed.

Lemma probe_transport_error_witness :
  exit_code (run_main (sample_flags false false true false)
               (offline_world "0x01")) = 1.
Proof.
  exact (proj1 (probe_transport_error (sample_flags false false true false)
                  (offline_world "0x01") "connection refused"
                  eq_refl eq_refl eq_refl eq_refl)).
Defined.

(** ** After the probe *)

Ltac observe :=
  unfold emitted, network_calls, files_written;
  rewrite ?existsb_app, ?omap_app, ?List.filter_app;
  repeat match goal with
         | H : existsb _ _ = false |- _ => rewrite H
         | H : emitted _ = [] |- _ => unfold emitted in H; rewrite H
         | H : files_written _ = [] |- _ => unfold files_written in H; rewrite H
         | H : network_calls _ = _ |- _ => unfold network_calls in H; rewrite H
         | H : marshals _ _ = _ |- _ => rewrite H
         end;
  cbn.

(** From the probe response to the classification of its status, with the
    whole of what Step 1 did. *)
Lemma run_main_classify_full (fl : flags) (w : world) (resp : response) :
  probed fl w resp ->
  exists s2,
    run_main fl w
    = main_classify fl w (human_mode fl) (effective_method fl)
        (RespStatusCode resp) (RespBody resp) s2 /\
    locals s2 = {| Version := version w; Endpoint := endpoint fl;
                   Method := effective_method fl; Status := EmptyString;
                   Probe := Some (probe_outcome resp); Payment := None;
                   Error := EmptyString |} /\
    probe_trace fl (trace s2).
Proof.
  intros (Hver & Hurl & Hreq & Hdo).
  unfold run_main, main, main_probe, main_build_probe, probe_outcome,
    set_ProbeBody, set_PaymentRequirements, probe_trace, step1_trace.
  fold (effective_method fl). fold (human_mode fl).
  rewrite Hver, Hurl, Hreq, Hdo.
  destruct (human_mode fl), (jsonOutput fl), (verbose fl),
    (is_empty (Header_Get resp "PAYMENT-REQUIRED")); case_run;
    unfold bind;
    (eexists; split; [reflexivity|]; split; [reflexivity|];
     repeat split; try reflexivity; discriminate).
Qed.

(** A probe answered with a status that is neither 200 nor 402 ends the
    run with the status "no_402" and exit code 0: the probe request is the
    only network call, nothing is signed, no file is written, and the probe
    outcome is in the result.  In JSON mode that result is the one document
    emitted, unless it does not marshal (a header decoded to bytes that are
    no JSON text): then no document is emitted. *)
Theorem other_status_is_no_402 (fl : flags) (w : world) (resp : response) :
  probed fl w resp ->
  RespStatusCode resp <> StatusOK ->
  RespStatusCode resp <> StatusPaymentRequired ->
  let o := run_main fl w in
  exit_code o = ExitSuccess /\
  Status (locals (final o)) = "no_402" /\
  Probe (locals (final o)) = Some (probe_outcome resp) /\
  Payment (locals (final o)) = None /\
  existsb is_payment_event (trace (final o)) = false /\
  network_calls (trace (final o))
  = [PlainDo (effective_method fl) (endpoint fl) (data fl) (headers fl)] /\
  files_written (trace (final o)) = [] /\
  (jsonOutput fl = true -> emitted (trace (final o))
     = (if marshals w (locals (final o)) then [locals (final o)] else [])).
Proof.
  intros Hp H200 H402 o. subst o.
  destruct (run_main_classify_full fl w resp Hp)
    as ([r2 tr2] & -> & Hloc & (Hpay & Herr & Hdoc) & Hnet & Hfile & Hin & Hhum & Hdocs).
  cbn [locals trace] in *. subst r2. unfold main_classify.
  destruct (Z.eqb_spec (RespStatusCode resp) StatusPaymentRequired) as [|_];
    [contradiction|].
  destruct (Z.eqb_spec (RespStatusCode resp) StatusOK) as [|_]; [contradiction|].
  destruct (jsonOutput fl), (human_mode fl); case_run;
    (do 4 (split; [reflexivity|]); do 3 (split; [observe; reflexivity|]);
     intros Hj; try discriminate; observe; reflexivity).
Qed.

Lemma other_status_is_no_402_witness :
  let o := run_main (sample_flags false false true false)
             (sample_world "0x01" (sample_response 404 EmptyString "not found") "n") in
  exit_code o = 0 /\ Status (locals (final o)) = "no_402".
Proof.
  pose proof (other_status_is_no_402 (sample_flags false false true false)
                (sample_world "0x01" (sample_response 404 EmptyString "not found") "n")
                (sample_response 404 EmptyString "not found")
                ltac:(repeat split) ltac:(discriminate) ltac:(discriminate))
    as (H1 & H2 & _).
  exact (conj H1 H2).
Defined.

(** A dry run without auto-confirmation never pays unless the operator
    says so.  With status 402 and no skip flag: in JSON mode the run ends
    at once with the status "payment_required", without reading standard
    input; in text mode an answer that does not start with y (or no answer
    at all) ends it with "Aborted." and no status.  Either way the exit
    code is 0, no signer is constructed and no paid request is made.  The
    document of the JSON mode is the result when it marshals; no document
    is emitted when it does not. *)
Theorem dry_run_without_confirmation (fl : flags) (w : world) (resp : response) :
  probed fl w resp ->
  RespStatusCode resp = StatusPaymentRequired ->
  skipVerify fl = false ->
  dryRun fl && negb (autoYes fl) = true ->
  jsonOutput fl = true \/ confirms w = false ->
  let o := run_main fl w in
  exit_code o = ExitSuccess /\
  existsb is_payment_event (trace (final o)) = false /\
  Payment (locals (final o)) = None /\
  network_calls (trace (final o))
  = [PlainDo (effective_method fl) (endpoint fl) (data fl) (headers fl)] /\
  (jsonOutput fl = true ->
     Status (locals (final o)) = "payment_required" /\
     emitted (trace (final o))
     = (if marshals w (locals (final o)) then [locals (final o)] else []) /\
     existsb is_stdin_read (trace (final o)) = false) /\
  (jsonOutput fl = false ->
     Status (locals (final o)) = EmptyString /\
     existsb is_stdin_read (trace (final o)) = true /\
     last (trace (final o)) = Some (Stdout ("Aborted." +:+ nl))).
Proof.
  intros Hp Hcode Hskip Hdry Hcase o. subst o.
  destruct (run_main_classify_full fl w resp Hp)
    as ([r2 tr2] & -> & Hloc & (Hpay & Herr & Hdoc) & Hnet & Hfile & Hin & Hhum & Hdocs).
  cbn [locals trace] in *. subst r2. rewrite Hcode.
  unfold main_classify. rewrite Hskip, Hdry. fold (confirms w).
  change (StatusPaymentRequired =? StatusPaymentRequired) with true.
  destruct (jsonOutput fl) eqn:Hj.
  - destruct (human_mode fl); case_run; try discriminate;
      (split; [reflexivity|]; split; [observe; reflexivity|];
       split; [reflexivity|]; split; [observe; reflexivity|];
       split; [|discriminate]; intros _;
       split; [reflexivity|]; split; observe; reflexivity).
  - destruct Hcase as [|Hc]; [discriminate|]. rewrite Hc.
    destruct (human_mode fl); case_run;
      (split; [reflexivity|]; split; [observe; reflexivity|];
       split; [reflexivity|]; split; [observe; reflexivity|];
       split; intros Hx; try discriminate;
       split; [reflexivity|]; split;
       [observe; now rewrite ?orb_true_r | now rewrite last_snoc]).
Qed.

Lemma dry_run_without_confirmation_witness :
  let o := run_main (sample_flags false true false false)
             (sample_world "0x01" (sample_response 402 "e30=" "{}") "no") in
  exit_code o = 0 /\ existsb is_payment_event (trace (final o)) = false.
Proof.
  pose proof (dry_run_without_confirmation (sample_flags false true false false)
                (sample_world "0x01" (sample_response 402 "e30=" "{}") "no")
                (sample_response 402 "e30=" "{}")
                ltac:(repeat split) eq_refl eq_refl eq_refl (or_intror eq_refl))
    as (H1 & H2 & _).
  exact (conj H1 H2).
Defined.

(** ** The payment phase *)

(** A credential the signer library rejects ends the run with exit code 1
    after the signer was tried and before any paid request: the probe
    request stays the only network call and the result has no payment
    outcome.  In JSON mode the result says "error" and why, and it is the
    one document emitted when it marshals; no document is emitted when it
    does not. *)
Theorem signer_failure_stops (fl : flags) (w : world) (resp : response)
    (err : string) :
  probed fl w resp ->
  RespStatusCode resp = StatusPaymentRequired ->
  skipVerify fl = false ->
  passes_prompt fl w ->
  is_empty (EVM_PRIVATE_KEY w) = false ->
  NewClientSignerFromPrivateKey w (EVM_PRIVATE_KEY w) = inl err ->
  let o := run_main fl w in
  exit_code o = ExitError /\
  network_calls (trace (final o))
  = [PlainDo (effective_method fl) (endpoint fl) (data fl) (headers fl)] /\
  NewSigner (EVM_PRIVATE_KEY w) ∈ trace (final o) /\
  Payment (locals (final o)) = None /\
  Probe (locals (final o)) = Some (probe_outcome resp) /\
  (jsonOutput fl = true ->
     emitted (trace (final o))
     = (if marshals w (locals (final o)) then [locals (final o)] else []) /\
     Status (locals (final o)) = "error" /\
     Error (locals (final o)) = "failed to create signer: " +:+ err) /\
  (jsonOutput fl = false ->
     Stderr ("Failed to create signer: " +:+ err +:+ nl) ∈ trace (final o)).
Proof.
  intros Hp Hcode Hskip Hgate Hkey Hsigner o. subst o.
  destruct (run_main_classify_full fl w resp Hp)
    as ([r2 tr2] & -> & Hloc & (Hpay & Herr & Hdoc) & Hnet & Hfile & Hin & Hhum & Hdocs).
  cbn [locals trace] in *. subst r2. rewrite Hcode.
  unfold main_classify, main_step2. rewrite Hskip, Hkey, Hsigner.
  fold (confirms w).
  change (StatusPaymentRequired =? StatusPaymentRequired) with true.
  destruct Hgate as [Hg | [Hj Hc]]; [rewrite Hg | rewrite Hj, Hc];
    destruct (human_mode fl); case_run;
    (split; [reflexivity|]; split; [observe; reflexivity|];
     split; [set_solver|]; do 2 (split; [reflexivity|]);
     split; intros Hx; try discriminate;
     first [ split; [observe; reflexivity | now split] | set_solver ]).
Qed.

Lemma signer_failure_stops_witness :
  exit_code (run_main (sample_flags false false true false)
               (with_payment (inl "invalid hex character") (inl "unused")
                  (sample_world "zz" (sample_response 402 "e30=" "{}") "n"))) = 1.
Proof.
  exact (proj1 (signer_failure_stops (sample_flags false false true false)
                  (with_payment (inl "invalid hex character") (inl "unused")
                     (sample_world "zz" (sample_response 402 "e30=" "{}") "n"))
                  (sample_response 402 "e30=" "{}") "invalid hex character"
                  ltac:(repeat split) eq_refl eq_refl (or_introl eq_refl)
                  eq_refl eq_refl)).
Defined.

(** A transport error on the paid request ends the run with exit code 1:
    the probe and the paid request went out, the probe outcome is kept, and
    there is no payment outcome.  In JSON mode the result says "error" and
    why, and it is the one document emitted when it marshals; no document
    is emitted when it does not. *)
Theorem payment_transport_error (fl : flags) (w : world) (resp : response)
    (address err : string) :
  probed fl w resp ->
  RespStatusCode resp = StatusPaymentRequired ->
  skipVerify fl = false ->
  passes_prompt fl w ->
  is_empty (EVM_PRIVATE_KEY w) = false ->
  NewClientSignerFromPrivateKey w (EVM_PRIVATE_KEY w) = inr address ->
  httpClient_Do w (effective_method fl) (endpoint fl) (data fl) (headers fl)
    = inl err ->
  let o := run_main fl w in
  exit_code o = ExitError /\
  network_calls (trace (final o))
  = [PlainDo (effective_method fl) (endpoint fl) (data fl) (headers fl);
     PaymentDo (effective_method fl) (endpoint fl) (data fl) (headers fl)] /\
  Payment (locals (final o)) = None /\
  Probe (locals (final o)) = Some (probe_outcome resp) /\
  files_written (trace (final o)) = [] /\
  (jsonOutput fl = true ->
     emitted (trace (final o))
     = (if marshals w (locals (final o)) then [locals (final o)] else []) /\
     Status (locals (final o)) = "error" /\
     Error (locals (final o)) = "payment request failed: " +:+ err) /\
  (jsonOutput fl = false ->
     Stderr ("Payment request failed: " +:+ err +:+ nl) ∈ trace (final o)).
Proof.
  intros Hp Hcode Hskip Hgate Hkey Hsigner Hdo o. subst o.
  destruct (run_main_classify_full fl w resp Hp)
    as ([r2 tr2] & -> & Hloc & (Hpay & Herr & Hdoc) & Hnet & Hfile & Hin & Hhum & Hdocs).
  cbn [locals trace] in *. subst r2. rewrite Hcode.
  unfold main_classify, main_step2. rewrite Hskip, Hkey, Hsigner, Hdo.
  fold (confirms w).
  change (StatusPaymentRequired =? StatusPaymentRequired) with true.
  destruct Hgate as [Hg | [Hj Hc]]; [rewrite Hg | rewrite Hj, Hc];
    destruct (human_mode fl); case_run;
    (split; [reflexivity|]; split; [observe; reflexivity|];
     do 2 (split; [reflexivity|]); split; [observe; reflexivity|];
     split; intros Hx; try discriminate;
     first [ split; [observe; reflexivity | now split] | set_solver ]).
Qed.

Lemma payment_transport_error_witness :
  exit_code (run_main (sample_flags false false true false)
               (with_payment (inr "0xabc") (inl "timeout")
                  (sample_world "0x01" (sample_response 402 "e30=" "{}") "n"))) = 1.
Proof.
  exact (proj1 (payment_transport_error (sample_flags false false true false)
                  (with_payment (inr "0xabc") (inl "timeout")
                     (sample_world "0x01" (sample_response 402 "e30=" "{}") "n"))
                  (sample_response 402 "e30=" "{}") "0xabc" "timeout"
                  ltac:(repeat split) eq_refl eq_refl (or_introl eq_refl)
                  eq_refl eq_refl eq_refl)).
Defined.

(** Lines 358 to 409 on any state: the run exits with the code and the
    result that the status of the answer calls for, having written the
    body where asked and, in JSON mode, printed the result, or an empty
    line when the result does not marshal. *)
Lemma main_payment_state (fl : flags) (w : world) (human : bool) (address : string)
    (resp2 : response) (s : pstate jsonResult) :
  exists tr st,
    main_payment fl w human address resp2 s = Exit (payment_exit resp2) st /\
    locals st = payment_result (locals s) address resp2 /\
    trace st = (trace s ++ tr)%list /\
    network_calls tr = [] /\
    files_written tr
    = (if is_empty (outputFile fl) || (len (RespBody resp2) =? 0) then []
       else [(outputFile fl, RespBody resp2)]) /\
    emitted tr
    = (if jsonOutput fl && marshals w (locals st) then [locals st] else []) /\
    documents tr
    = (if jsonOutput fl && marshals w (locals st) then [EmitJSON (locals st)]
       else []) /\
    (jsonOutput fl = true ->
       last tr = Some (if marshals w (locals st) then EmitJSON (locals st)
                       else Stdout nl)) /\
    existsb is_payment_event tr = false /\
    existsb is_stdin_read tr = false /\
    (human = false ->
       existsb is_human_event tr = jsonOutput fl && negb (marshals w (locals st))).
Proof.
  destruct s as [r tr0].
  unfold main_payment, payment_exit, payment_result, pay_outcome,
    set_PaymentResponse.
  case_run; rewrite <- ?app_assoc; cbn [app];
    (eexists _, _; split; [reflexivity|]; cbn [locals trace];
     split; [reflexivity|];
     split; [first [reflexivity | symmetry; apply app_nil_r]|];
     repeat match goal with
            | H : marshals _ _ = _ |- _ => rewrite H
            end;
     now repeat split).
Qed.

Lemma main_payment_run (fl : flags) (w : world) (human : bool) (address : string)
    (resp2 : response) (s : pstate jsonResult) :
  let result := payment_result (locals s) address resp2 in
  exists tr,
    main_payment fl w human address resp2 s
    = Exit (payment_exit resp2)
        {| locals := result; trace := trace s ++ tr |} /\
    network_calls tr = [] /\
    files_written tr
    = (if is_empty (outputFile fl) || (len (RespBody resp2) =? 0) then []
       else [(outputFile fl, RespBody resp2)]) /\
    emitted tr = (if jsonOutput fl && marshals w result then [result] else []) /\
    documents tr
    = (if jsonOutput fl && marshals w result then [EmitJSON result] else []) /\
    (jsonOutput fl = true ->
       last tr = Some (if marshals w result then EmitJSON result else Stdout nl)) /\
    existsb is_payment_event tr = false /\
    existsb is_stdin_read tr = false /\
    (human = false ->
       existsb is_human_event tr = jsonOutput fl && negb (marshals w result)).
Proof.
  intros result. subst result.
  destruct (main_payment_state fl w human address resp2 s)
    as (tr & [r' tr'] & Hrun & Hloc & Htr & H).
  cbn [locals trace] in *. subst r' tr'. exists tr. split; assumption.
Qed.

(** Lines 275 to 340 when nothing stops the run: the prompt passes, the
    signer is made and the paid request goes out. *)
Lemma main_classify_pays (fl : flags) (w : world) (resp2 : response)
    (address body : string) (s : pstate jsonResult) :
  skipVerify fl = false ->
  passes_prompt fl w ->
  paid fl w address resp2 ->
  exists tr,
    main_classify fl w (human_mode fl) (effective_method fl)
      StatusPaymentRequired body s
    = main_payment fl w (human_mode fl) address resp2
        {| locals := locals s; trace := trace s ++ tr |} /\
    network_calls tr
    = [PaymentDo (effective_method fl) (endpoint fl) (data fl) (headers fl)] /\
    files_written tr = [] /\
    emitted tr = [].
Proof.
  intros Hskip Hgate (Hkey & Hsigner & Hdo). destruct s as [r tr0].
  unfold main_classify, main_step2. rewrite Hskip, Hkey, Hsigner, Hdo.
  fold (confirms w).
  change (StatusPaymentRequired =? StatusPaymentRequired) with true.
  destruct Hgate as [Hg | [Hj Hc]]; [rewrite Hg | rewrite Hj, Hc];
    destruct (human_mode fl); try destruct (dryRun fl && negb (autoYes fl));
    run_main_monad; rewrite <- ?app_assoc; cbn [app];
    first [ eexists; split; [reflexivity | now repeat split]
          | exists []; rewrite app_nil_r; split; [reflexivity | now repeat split] ].
Qed.

(** The answer to the paid request decides the end of the run.  Status 200:
    "accepted", exit code 0.  Status 402 again: "rejected", exit code 2.
    Any other status: "error" with the text "unexpected status N", exit
    code 1.  In every case the result carries the payment outcome built
    from that answer (status code, accepted flag, signer address, decoded
    settlement header when there is one and it decodes, body), the probe
    outcome is kept, exactly two requests went out, and the body of the
    answer is written to the output file when one is named and the body is
    not empty.  In JSON mode the one document is the final result when it
    marshals; when the bytes decoded from one of the two headers are no
    JSON text, no document is emitted. *)
Theorem paid_response_classified (fl : flags) (w : world)
    (resp resp2 : response) (address : string) :
  probed fl w resp ->
  RespStatusCode resp = StatusPaymentRequired ->
  skipVerify fl = false ->
  passes_prompt fl w ->
  paid fl w address resp2 ->
  let o := run_main fl w in
  let code2 := RespStatusCode resp2 in
  exit_code o = (if code2 =? StatusOK then ExitSuccess
                 else if code2 =? StatusPaymentRequired then ExitPaymentRejected
                 else ExitError) /\
  Status (locals (final o))
  = (if code2 =? StatusOK then "accepted"
     else if code2 =? StatusPaymentRequired then "rejected" else "error") /\
  Error (locals (final o))
  = (if (code2 =? StatusOK) || (code2 =? StatusPaymentRequired) then EmptyString
     else "unexpected status " +:+ big_String code2) /\
  Payment (locals (final o)) = Some (pay_outcome address resp2) /\
  Probe (locals (final o)) = Some (probe_outcome resp) /\
  network_calls (trace (final o))
  = [PlainDo (effective_method fl) (endpoint fl) (data fl) (headers fl);
     PaymentDo (effective_method fl) (endpoint fl) (data fl) (headers fl)] /\
  files_written (trace (final o))
  = (if is_empty (outputFile fl) || (len (RespBody resp2) =? 0) then []
     else [(outputFile fl, RespBody resp2)]) /\
  (jsonOutput fl = true -> emitted (trace (final o))
     = (if marshals w (locals (final o)) then [locals (final o)] else [])).
Proof.
  intros Hp Hcode Hskip Hgate Hpaid o code2. subst o code2.
  destruct (run_main_classify_full fl w resp Hp)
    as (s2 & -> & Hloc & (Hpay & Herr & Hdoc) & Hnet & Hfile & Hin & Hhum & Hdocs).
  rewrite Hcode.
  destruct (main_classify_pays fl w resp2 address (RespBody resp) s2 Hskip Hgate Hpaid)
    as (tr3 & -> & Hnet3 & Hfile3 & Hdoc3).
  destruct (main_payment_run fl w (human_mode fl) address resp2
              {| locals := locals s2; trace := trace s2 ++ tr3 |})
    as (tr4 & -> & Hnet4 & Hfile4 & Hdoc4 & _).
  cbn [exit_code final locals trace]. rewrite Hloc.
  unfold payment_exit, payment_result. split; [reflexivity|].
  split; [| split; [| split; [| split; [| split; [| split]]]]].
  - now destruct (RespStatusCode resp2 =? StatusOK),
      (RespStatusCode resp2 =? StatusPaymentRequired).
  - now destruct (RespStatusCode resp2 =? StatusOK),
      (RespStatusCode resp2 =? StatusPaymentRequired).
  - now destruct (RespStatusCode resp2 =? StatusOK),
      (RespStatusCode resp2 =? StatusPaymentRequired).
  - now destruct (RespStatusCode resp2 =? StatusOK),
      (RespStatusCode resp2 =? StatusPaymentRequired).
  - unfold network_calls in *. now rewrite !List.filter_app, Hnet, Hnet3, Hnet4.
  - unfold files_written in *. now rewrite !omap_app, Hfile, Hfile3, Hfile4.
  - intros Hj. unfold emitted in *. rewrite !omap_app, Hdoc, Hdoc3, Hdoc4, Hj, Hloc.
    reflexivity.
Qed.

Lemma paid_response_classified_witness :
  let o := run_main (sample_flags false false true false)
             (with_payment (inr "0xabc") (inr (sample_response 402 EmptyString "declined"))
                (sample_world "0x01" (sample_response 402 "e30=" "{}") "n")) in
  exit_code o = 2 /\ Status (locals (final o)) = "rejected".
Proof.
  pose proof (paid_response_classified (sample_flags false false true false)
                (with_payment (inr "0xabc")
                   (inr (sample_response 402 EmptyString "declined"))
                   (sample_world "0x01" (sample_response 402 "e30=" "{}") "n"))
                (sample_response 402 "e30=" "{}")
                (sample_response 402 EmptyString "declined") "0xabc"
                ltac:(repeat split) eq_refl eq_refl (or_introl eq_refl)
                ltac:(repeat split)) as (H1 & H2 & _).
  exact (conj H1 H2).
Defined.

(** ** Every run *)

Lemma probed_dec (fl : flags) (w : world) :
  (exists resp, probed fl w resp) \/ (forall resp, ~ probed fl w resp).
Proof.
  unfold probed.
  destruct (showVer fl); [right; intros resp (H & _); discriminate|].
  destruct (is_empty (endpoint fl)); [right; intros resp (_ & H & _); discriminate|].
  destruct (NewRequest w (effective_method fl) (endpoint fl));
    [right; intros resp (_ & _ & H & _); discriminate|].
  destruct (plainClient_Do w (effective_method fl) (endpoint fl) (data fl) (headers fl))
    as [err|resp]; [right; intros resp (_ & _ & _ & H); discriminate|].
  left. now exists resp.
Qed.

Ltac settle :=
  intros; try discriminate; try reflexivity; try assumption;
  try (left; reflexivity); try (right; reflexivity);
  try (eexists; split; reflexivity);
  try (eexists; split; [reflexivity|]; split; [reflexivity|];
       split; [reflexivity|]; intros; first [reflexivity | discriminate]);
  try (right; split; [reflexivity|]; eexists; split; reflexivity).

(** A run that gets no probe response: it exits with 0 (a version query) or
    1, signs nothing, writes no file, reads no input, and sends the probe
    request at most. *)
Lemma unprobed_run (fl : flags) (w : world) :
  (forall resp, ~ probed fl w resp) ->
  exists c s,
    run_main fl w = Exit c s /\
    (c = 0 \/ c = 1) /\
    existsb is_payment_event (trace s) = false /\
    Payment (locals s) = None /\
    files_written (trace s) = [] /\
    existsb is_stdin_read (trace s) = false /\
    (network_calls (trace s) = [] \/
     network_calls (trace s)
     = [PlainDo (effective_method fl) (endpoint fl) (data fl) (headers fl)]) /\
    (showVer fl = false -> human_mode fl = false ->
       existsb is_human_event (trace s) = false) /\
    (showVer fl = false -> jsonOutput fl = true ->
       documents (trace s) = [EmitJSON (locals s)]
       \/ (is_empty (endpoint fl) = true /\ exists r, documents (trace s) = [EmitJSON r] /\ Status r = "error")) /\
    (showVer fl = false -> jsonOutput fl = true ->
       exists r, last (trace s) = Some (EmitJSON r) /\
                 status_exit (Status r) = Some c /\
                 marshals w r = true /\
                 (is_empty (endpoint fl) = false -> r = locals s)).
Proof.
  intros Hnot. unfold run_main, main. fold (effective_method fl).
  unfold human_mode.
  destruct (showVer fl) eqn:Hver.
  { destruct (jsonOutput fl); case_run;
      (eexists _, _; split; [reflexivity|]; repeat split; settle). }
  destruct (is_empty (endpoint fl)) eqn:Hurl.
  { destruct (jsonOutput fl); case_run;
      (eexists _, _; split; [reflexivity|]; repeat split; settle). }
  destruct (NewRequest w (effective_method fl) (endpoint fl)) as [err|] eqn:Hreq.
  { destruct (jsonOutput fl), (quiet fl); case_run;
      (eexists _, _; split; [reflexivity|]; repeat split; settle). }
  destruct (plainClient_Do w (effective_method fl) (endpoint fl) (data fl) (headers fl))
    as [err|resp] eqn:Hdo.
  { destruct (jsonOutput fl), (quiet fl), (verbose fl); case_run;
      (eexists _, _; split; [reflexivity|]; repeat split; settle). }
  exfalso. apply (Hnot resp). now repeat split.
Qed.

(** Case analysis along [main_classify] and [main_step2] that stops in
    front of [main_payment]. *)
Ltac walk :=
  repeat (run_main_monad;
          match goal with
          | |- context [match ?x with _ => _ end] =>
              lazymatch x with
              | context [match _ with _ => _ end] => fail
              | context [main_payment] => fail
              | _ => destruct x eqn:?
              end
          end);
  run_main_monad.

Ltac enter_payment :=
  try match goal with
      | |- context [main_payment ?fl ?w ?h ?a ?r ?s] =>
          let tr := fresh "tr4" in
          let Hrun := fresh "Hrun4" in
          destruct (main_payment_run fl w h a r s)
            as (tr & Hrun & ?Hnet4 & ?Hfile4 & ?Hdoc4 & ?Hdocs4 & ?Hlast4
                & ?Hpay4 & ?Hin4 & ?Hhum4);
          rewrite Hrun; run_main_monad
      end.

(** Nothing is signed and no paid request is made unless all of this
    holds: the probe was answered with status 402, the skip flag is not
    set, a credential is there, and the dry-run prompt let the run
    through. *)
Theorem payment_only_when_due (fl : flags) (w : world) :
  existsb is_payment_event (trace (final (run_main fl w))) = true ->
  exists resp,
    probed fl w resp /\
    RespStatusCode resp = StatusPaymentRequired /\
    skipVerify fl = false /\
    is_empty (EVM_PRIVATE_KEY w) = false /\
    passes_prompt fl w.
Proof.
  destruct (probed_dec fl w) as [[resp Hp] | Hnot].
  2:{ destruct (unprobed_run fl w Hnot) as (c & s & -> & _ & Hpay & _).
      cbn [final]. rewrite Hpay. discriminate. }
  destruct (run_main_classify_full fl w resp Hp)
    as ([r2 tr2] & -> & Hloc & (Hpay & Herr & Hdoc) & Hnet & Hfile & Hin & Hhum & Hdocs).
  cbn [locals trace] in *. intros H. exists resp. split; [assumption|].
  revert H. unfold main_classify, main_step2, passes_prompt. fold (confirms w).
  walk; enter_payment;
    rewrite ?existsb_app, ?Hpay, ?Hpay4; cbn; intros H; try discriminate;
    rewrite ?Z.eqb_eq in *; repeat split; auto.
Qed.

Lemma payment_only_when_due_witness :
  exists resp,
    probed (sample_flags false false true false)
      (sample_world "0x01" (sample_response 402 "e30=" "{}") "n") resp /\
    RespStatusCode resp = StatusPaymentRequired.
Proof.
  destruct (payment_only_when_due (sample_flags false false true false)
              (sample_world "0x01" (sample_response 402 "e30=" "{}") "n") eq_refl)
    as (resp & Hp & Hcode & _).
  exists resp. exact (conj Hp Hcode).
Defined.

Ltac payment_cases :=
  match goal with
  | |- context [payment_exit ?r] =>
      unfold payment_result, payment_exit;
      destruct (RespStatusCode r =? StatusOK),
        (RespStatusCode r =? StatusPaymentRequired); reflexivity
  end.

Lemma human_mode_json (fl : flags) : jsonOutput fl = true -> human_mode fl = false.
Proof. unfold human_mode. intros ->. now destruct (quiet fl). Qed.

Lemma human_mode_quiet (fl : flags) : quiet fl = true -> human_mode fl = false.
Proof. unfold human_mode. now intros ->. Qed.

Lemma documents_last (tr : list event) (e : event) (r : jsonResult) :
  documents tr = [e] -> last tr = Some (EmitJSON r) -> e = EmitJSON r.
Proof.
  intros Hd Hl. apply last_Some in Hl as [tr' ->].
  unfold documents in Hd. rewrite List.filter_app in Hd. cbn in Hd.
  destruct (List.filter is_document tr') as [|e' [|e'' l]]; cbn in Hd;
    congruence.
Qed.

(** In JSON mode a run that is not a version query ends by printing its
    result, once: the document, as the last thing it does, or, when the
    result does not marshal because a header decoded to bytes that are no
    JSON text, an empty line and no document.  Nothing else is printed for a
    human reader, standard input is never read, and in both cases the exit
    code is the one that goes with the status of the result (free 3,
    rejected 2, error 1, and 0 for no_402, payment_required and
    accepted). *)
Theorem json_mode_single_document (fl : flags) (w : world) :
  jsonOutput fl = true ->
  showVer fl = false ->
  let o := run_main fl w in
  exists r,
    (is_empty (endpoint fl) = false -> r = locals (final o)) /\
    last (trace (final o))
    = Some (if marshals w r then EmitJSON r else Stdout nl) /\
    documents (trace (final o)) = (if marshals w r then [EmitJSON r] else []) /\
    existsb is_human_event (trace (final o)) = negb (marshals w r) /\
    status_exit (Status r) = Some (exit_code o) /\
    existsb is_stdin_read (trace (final o)) = false.
Proof.
  intros Hj Hver o. subst o.
  pose proof (human_mode_json fl Hj) as Hhm.
  destruct (probed_dec fl w) as [[resp Hp] | Hnot].
  2:{ destruct (unprobed_run fl w Hnot)
        as (c & s & -> & _ & _ & _ & _ & Hin & _ & Hhum & Hdoc & Hlast).
      destruct (Hlast Hver Hj) as (r & Hl & Hst & Hm & Hr). exists r.
      cbn [final exit_code]. rewrite Hm. cbn [negb].
      split; [assumption|]. split; [assumption|].
      split; [|split; [auto | split; assumption]].
      destruct (Hdoc Hver Hj) as [Hd | (_ & r' & Hd & _)];
        rewrite Hd; f_equal; apply (documents_last _ _ _ Hd Hl). }
  destruct (run_main_classify_full fl w resp Hp)
    as ([r2 tr2] & -> & Hloc & (Hpay & Herr & Hdoc) & Hnet & Hfile & Hin & Hhum & Hdocs).
  cbn [locals trace] in *. specialize (Hhum Hhm).
  unfold main_classify, main_step2. fold (confirms w). rewrite Hhm, Hj.
  walk; enter_payment;
    try (specialize (Hhum4 eq_refl); rewrite Hj in *; specialize (Hlast4 eq_refl);
         cbn [andb] in * );
    (eexists; split; [intros _; reflexivity|];
     unfold documents in *;
     rewrite ?existsb_app, ?List.filter_app, ?Hhum, ?Hin, ?Hdocs, ?Hhum4, ?Hin4,
       ?Hdocs4;
     repeat match goal with
            | H : marshals _ _ = _ |- _ => rewrite H
            end;
     cbn [existsb is_human_event is_stdin_read is_document List.filter app orb negb];
     split; [first [apply last_snoc | rewrite last_app, Hlast4; reflexivity]|];
     split; [reflexivity|]; split; [reflexivity|];
     split; [first [reflexivity | payment_cases]|];
     reflexivity).
Qed.

Lemma json_mode_single_document_witness :
  let o := run_main (sample_flags false true true false)
             (sample_world "0x01" (sample_response 402 "e30=" "{}") "n") in
  exists r,
    documents (trace (final o)) = [EmitJSON r] /\
    Status r = "payment_required" /\
    exit_code o = 0.
Proof.
  destruct (json_mode_single_document (sample_flags false true true false)
              (sample_world "0x01" (sample_response 402 "e30=" "{}") "n")
              eq_refl eq_refl) as (r & Hr & _ & Hd & _).
  exists r. rewrite (Hr eq_refl) in *. split; [exact Hd|]. split; reflexivity.
Defined.

(** ** Exit codes *)





(** ** The output file *)

Lemma len_nonzero (s : string) : (len s =? 0) = false -> is_empty s = false.
Proof. now destruct s. Qed.

(** A run writes one file at most, the one named with -o, and only a body
    that is not empty: the body of a probe answered with status 200, or the
    body of the answer to the paid request, whatever its status.  The body
    of a probe answered with 402, or with any other status, is never
    saved. *)
Theorem output_file_written (fl : flags) (w : world) :
  let tr := trace (final (run_main fl w)) in
  files_written tr = [] \/
  exists body,
    files_written tr = [(outputFile fl, body)] /\
    is_empty (outputFile fl) = false /\
    is_empty body = false /\
    ((exists resp,
        probed fl w resp /\ RespStatusCode resp = StatusOK /\ body = RespBody resp)
     \/ (exists address resp2, paid fl w address resp2 /\ body = RespBody resp2)).
Proof.
  intros tr. subst tr.
  destruct (probed_dec fl w) as [[resp Hp] | Hnot].
  2:{ destruct (unprobed_run fl w Hnot) as (c & s & -> & _ & _ & _ & Hfile & _).
      now left. }
  destruct (run_main_classify_full fl w resp Hp)
    as ([r2 tr2] & -> & Hloc & (Hpay & Herr & Hdoc) & Hnet & Hfile & Hin & Hhum & Hdocs).
  clear Hloc Hpay Herr Hdoc Hnet Hin Hhum Hdocs. cbn [trace] in Hfile.
  unfold main_classify, main_step2. fold (confirms w).
  walk; enter_payment; unfold files_written in *;
    rewrite ?omap_app, ?Hfile, ?Hfile4; cbn [omap list_omap app];
    try (left; reflexivity).
  all: try match goal with
           | |- context [if ?b then _ else _] => destruct b eqn:Hsave
           end; try (left; reflexivity).
  all: right; eexists; (split; [reflexivity|]);
    try match goal with
        | H : _ || _ = false |- _ => apply orb_false_elim in H as [? ?]
        end;
    (split; [first [assumption | reflexivity]|]);
    (split; [apply len_nonzero; assumption|]).
  all: rewrite ?Z.eqb_eq in *;
    first [ left; exists resp; split; [assumption|]; split; [assumption|reflexivity]
          | right; eexists _, _; split; [unfold paid; repeat split; eassumption|];
            reflexivity ].
Qed.

Lemma output_file_written_witness :
  files_written
    (trace (final (run_main (sample_quiet_flags false "out.json")
                     (sample_world "0x01" (sample_response 402 "e30=" "{}") "n"))))
  = [("out.json", "paid")].
Proof.
  destruct (output_file_written (sample_quiet_flags false "out.json")
              (sample_world "0x01" (sample_response 402 "e30=" "{}") "n"))
    as [H | (body & H & _)]; [discriminate H | reflexivity].
Defined.

(** ** The quiet mode *)

Lemma unprobed_text_run (fl : flags) (w : world) :
  (forall resp, ~ probed fl w resp) ->
  jsonOutput fl = false ->
  documents (trace (final (run_main fl w))) = [].
Proof.
  intros Hnot Hj. unfold run_main, main. fold (effective_method fl). rewrite Hj.
  destruct (showVer fl) eqn:Hver; [reflexivity|].
  destruct (is_empty (endpoint fl)) eqn:Hurl; [reflexivity|].
  destruct (NewRequest w (effective_method fl) (endpoint fl)) as [err|] eqn:Hreq.
  { destruct (quiet fl); reflexivity. }
  destruct (plainClient_Do w (effective_method fl) (endpoint fl) (data fl) (headers fl))
    as [err|resp] eqn:Hdo.
  { destruct (quiet fl), (verbose fl); reflexivity. }
  exfalso. apply (Hnot resp). now repeat split.
Qed.

(** With -q in text mode a run prints no document, and it prints for a
    human reader or reads standard input in one situation only: the dry-run
    confirmation (dry run without auto-confirmation, a probe answered with
    402, no skip flag), where the payment summary and the prompt are shown
    in spite of -q and the answer is read. *)
Theorem quiet_mode_output (fl : flags) (w : world) :
  quiet fl = true ->
  jsonOutput fl = false ->
  showVer fl = false ->
  let tr := trace (final (run_main fl w)) in
  documents tr = [] /\
  (existsb is_human_event tr = true \/ existsb is_stdin_read tr = true ->
   dryRun fl && negb (autoYes fl) = true /\
   skipVerify fl = false /\
   exists resp,
     probed fl w resp /\ RespStatusCode resp = StatusPaymentRequired /\
     In (PaymentSummary (RespBody resp)) tr /\ In ReadStdin tr).
Proof.
  intros Hq Hj Hver tr. subst tr.
  pose proof (human_mode_quiet fl Hq) as Hhm.
  destruct (probed_dec fl w) as [[resp Hp] | Hnot].
  2:{ split; [now apply unprobed_text_run|].
      destruct (unprobed_run fl w Hnot)
        as (c & s & -> & _ & _ & _ & _ & Hin & _ & Hhum & _).
      cbn [final]. rewrite Hin, (Hhum Hver Hhm). now intros [|]. }
  destruct (run_main_classify_full fl w resp Hp)
    as ([r2 tr2] & -> & Hloc & (Hpay & Herr & Hdoc) & Hnet & Hfile & Hin & Hhum & Hdocs).
  cbn [locals trace] in *. specialize (Hhum Hhm).
  clear Hloc Hpay Herr Hdoc Hnet Hfile.
  unfold main_classify, main_step2. fold (confirms w). rewrite Hhm, Hj.
  walk; enter_payment;
    try (specialize (Hhum4 eq_refl); rewrite Hj in *);
    unfold documents in *;
    rewrite ?existsb_app, ?List.filter_app, ?Hhum, ?Hin, ?Hdocs, ?Hhum4, ?Hin4,
      ?Hdocs4; cbn;
    (split; [reflexivity|]).
  all: try (intros [|]; discriminate).
  all: intros _; rewrite ?Z.eqb_eq in *; (split; [reflexivity|]);
    (split; [reflexivity|]); exists resp;
    (split; [assumption|]); (split; [assumption|]);
    rewrite ?in_app_iff; cbn; tauto.
Qed.

Lemma quiet_mode_output_witness :
  let tr := trace (final (run_main (sample_quiet_flags true EmptyString)
                            (sample_world "0x01" (sample_response 402 "e30=" "{}") "n"))) in
  documents tr = [] /\ In (PaymentSummary "{}") tr.
Proof.
  destruct (quiet_mode_output (sample_quiet_flags true EmptyString)
              (sample_world "0x01" (sample_response 402 "e30=" "{}") "n")
              eq_refl eq_refl eq_refl) as (Hdocs & Hout).
  split; [exact Hdocs|].
  destruct (Hout (or_introl eq_refl)) as (_ & _ & resp & Hp & _ & Hsum & _).
  destruct Hp as (_ & _ & _ & Hresp). injection Hresp as <-. exact Hsum.
Defined.

(** ** The requests of a run *)

(** A run in the URL mode calls [Do] twice at most: the probe, and after
    it the paid request, which is made with the method, the URL, the body
    and the header values of the probe, the method being the one settled at
    lines 164 to 166 (POST in place of GET when a body is given); it makes no
    RPC call. *)
Theorem requests_sent (fl : flags) (w : world) :
  let probe := PlainDo (effective_method fl) (endpoint fl) (data fl) (headers fl) in
  let payment := PaymentDo (effective_method fl) (endpoint fl) (data fl) (headers fl) in
  let calls := network_calls (trace (final (run_main fl w))) in
  calls = [] \/ calls = [probe] \/ calls = [probe; payment].
Proof.
  intros probe payment calls. subst probe payment calls.
  destruct (probed_dec fl w) as [[resp Hp] | Hnot].
  2:{ destruct (unprobed_run fl w Hnot)
        as (c & s & -> & _ & _ & _ & _ & _ & [Hnet | Hnet] & _);
        cbn [final]; rewrite Hnet; auto. }
  destruct (run_main_classify_full fl w resp Hp)
    as ([r2 tr2] & -> & Hloc & (Hpay & Herr & Hdoc) & Hnet & Hfile & Hin & Hhum & Hdocs).
  cbn [trace] in Hnet. clear Hloc Hpay Herr Hdoc Hfile Hin Hhum Hdocs.
  unfold main_classify, main_step2. fold (confirms w).
  walk; enter_payment; unfold network_calls in *;
    rewrite ?List.filter_app, ?Hnet, ?Hnet4; cbn; auto.
Qed.

Lemma requests_sent_witness :
  network_calls
    (trace (final (run_main (sample_body_flags "{}")
                     (sample_world "0x01" (sample_response 402 "e30=" "{}") "n"))))
  = [PlainDo "POST" "https://api.example.com/paid-endpoint" "{}" [];
     PaymentDo "POST" "https://api.example.com/paid-endpoint" "{}" []].
Proof.
  destruct (requests_sent (sample_body_flags "{}")
              (sample_world "0x01" (sample_response 402 "e30=" "{}") "n"))
    as [H | [H | H]]; [discriminate H | discriminate H | exact H].
Defined.

(** ** The dry-run prompt *)

Lemma space2_ascii (a b : ascii) : (N_of_ascii a <? 128)%N = true -> space2 a b = false.
Proof.
  unfold space2. intros H%N.ltb_lt.
  destruct (N.eqb_spec (N_of_ascii a) 194); [lia | reflexivity].
Qed.

Lemma space3_ascii (a b c : ascii) :
  (N_of_ascii a <? 128)%N = true -> space3 a b c = false.
Proof.
  unfold space3. intros H%N.ltb_lt.
  destruct (N.eqb_spec (N_of_ascii a) 225); [lia|].
  destruct (N.eqb_spec (N_of_ascii a) 226); [lia|].
  destruct (N.eqb_spec (N_of_ascii a) 227); [lia | reflexivity].
Qed.

Lemma TrimLeftSpace_head (s : string) (c : ascii) (rest : string) :
  is_ascii_text s = true ->
  TrimLeftSpace s = String c rest ->
  is_space c = false /\ (N_of_ascii c <? 128)%N = true.
Proof.
  induction s as [|a s IH]; [discriminate|].
  cbn [is_ascii_text TrimLeftSpace]. intros [Ha Hs]%andb_prop.
  destruct (is_space a) eqn:E; [now apply IH|].
  destruct s as [|b s2]; [now intros [= <- <-]|].
  rewrite (space2_ascii a b Ha).
  destruct s2 as [|d s3]; [now intros [= <- <-]|].
  rewrite (space3_ascii a b d Ha). now intros [= <- <-].
Qed.

Lemma TrimRightSpace_head (c : ascii) (rest : string) :
  is_space c = false -> (N_of_ascii c <? 128)%N = true ->
  exists t, TrimRightSpace (String c rest) = String c t.
Proof.
  intros Hc Ha. cbn [TrimRightSpace]. exists (TrimRightSpace rest).
  destruct (TrimRightSpace rest) as [|b [|d [|e t]]]; cbn [is_space_rune];
    now rewrite ?Hc, ?(space2_ascii c b Ha), ?(space3_ascii c b d Ha).
Qed.

(** The dry-run prompt goes by the first character of the answer that is
    not white space: the run goes on when it is y or Y, whatever follows,
    and stops for any other answer and for an answer of white space
    alone (as it does at the end of input). *)
Theorem prompt_answer (w : world) (text : string) :
  stdin_line w = Some text ->
  is_ascii_text text = true ->
  confirms w = match TrimLeftSpace text with
               | EmptyString => false
               | String c _ => Ascii.eqb c "y" || Ascii.eqb c "Y"
               end.
Proof.
  unfold confirms. intros -> Hascii. unfold TrimSpace.
  destruct (TrimLeftSpace text) as [|c rest] eqn:E; [reflexivity|].
  destruct (TrimLeftSpace_head _ _ _ Hascii E) as [Hc Ha].
  destruct (TrimRightSpace_head c rest Hc Ha) as [t ->].
  unfold HasPrefix. cbn [ToLower String.prefix].
  destruct c as [[] [] [] [] [] [] [] []]; try reflexivity;
    now destruct (ToLower t).
Qed.

Lemma prompt_answer_witness :
  confirms (sample_world "0x01" (sample_response 402 "e30=" "{}") "  Yes, go on") = true.
Proof.
  exact (prompt_answer (sample_world "0x01" (sample_response 402 "e30=" "{}") "  Yes, go on")
           _ eq_refl eq_refl).
Defined.

(** ** Request headers *)

Lemma applyHeaders_app (canon : string -> string) (h : gmap string (list string))
    (l1 l2 : list string) :
  applyHeaders canon h (l1 ++ l2) = applyHeaders canon (applyHeaders canon h l1) l2.
Proof.
  revert h. induction l1 as [|s l1 IH]; intros h; [reflexivity|].
  cbn. destruct (Cut_colon s) as [[k v]|]; apply IH.
Qed.

Lemma applyHeaders_other (canon : string -> string) (h : gmap string (list string))
    (l : list string) (K : string) :
  (forall s k v, In s l -> Cut_colon s = Some (k, v) -> canon (TrimSpace k) <> K) ->
  applyHeaders canon h l !! K = h !! K.
Proof.
  revert h. induction l as [|s l IH]; intros h Hl; [reflexivity|].
  cbn. destruct (Cut_colon s) as [[k v]|] eqn:E.
  - rewrite IH by (intros s' k' v' Hin; apply Hl; now right).
    unfold Header_Set. apply lookup_insert_ne. apply (Hl s k v); [now left | assumption].
  - apply IH. intros s' k' v' Hin. apply Hl. now right.
Qed.

(** A header given more than once is not repeated in the request: of the
    -H values that name the same header (after trimming and
    canonicalisation of the name) the last one is sent, alone, with the
    white space around its value trimmed; the value is everything after the
    first colon. *)
Theorem applyHeaders_last_wins (canon : string -> string)
    (h : gmap string (list string)) (before after : list string) (s k v : string) :
  forallb is_ascii_text (before ++ s :: after) = true ->
  Cut_colon s = Some (k, v) ->
  (forall s' k' v', In s' after -> Cut_colon s' = Some (k', v') ->
                    canon (TrimSpace k') <> canon (TrimSpace k)) ->
  applyHeaders canon h (before ++ s :: after) !! canon (TrimSpace k)
  = Some [TrimSpace v].
Proof.
  intros _ Hcut Hafter. rewrite applyHeaders_app. cbn. rewrite Hcut.
  rewrite applyHeaders_other by assumption.
  unfold Header_Set. apply lookup_insert_eq.
Qed.

Lemma applyHeaders_last_wins_witness :
  applyHeaders (fun key => key) ∅
    ["Accept: text/html"; "Authorization: Bearer a:b"; "Accept:  application/json "]
  !! "Accept" = Some ["application/json"].
Proof.
  apply (applyHeaders_last_wins (fun key => key) ∅
           ["Accept: text/html"; "Authorization: Bearer a:b"] []
           "Accept:  application/json " "Accept" "  application/json " eq_refl eq_refl).
  intros s' k' v' [].
Defined.

(** A -H value without a colon is dropped without a word: the request is
    the one that would have been built without it. *)
Theorem applyHeaders_skips_malformed (canon : string -> string)
    (h : gmap string (list string)) (before after : list string) (s : string) :
  Cut_colon s = None ->
  applyHeaders canon h (before ++ s :: after) = applyHeaders canon h (before ++ after).
Proof.
  intros Hcut. rewrite !applyHeaders_app. cbn. now rewrite Hcut.
Qed.

Lemma applyHeaders_skips_malformed_witness :
  applyHeaders (fun key => key) ∅ ["X-Trace 1"; "Accept: text/html"]
  = applyHeaders (fun key => key) ∅ ["Accept: text/html"].
Proof.
  exact (applyHeaders_skips_malformed (fun key => key) ∅ [] ["Accept: text/html"]
           "X-Trace 1" eq_refl).
Defined.

(** ** The wallet command, its other paths *)

Lemma hex_val_range (c : ascii) (d : Z) : hex_val c = Some d -> 0 <= d < 16.
Proof.
  unfold hex_val. repeat case_match; intros [= <-]; lia.
Qed.

Lemma byte_of_Z_val (z : Z) : 0 <= z < 256 -> Z.of_N (N_of_ascii (byte_of_Z z)) = z.
Proof.
  intros Hz. unfold byte_of_Z. rewrite N_ascii_embedding.
  - rewrite Z2N.id; [apply Z.mod_small; lia | apply Z.mod_pos; lia].
  - rewrite Z.mod_small by lia. lia.
Qed.

Lemma hex_DecodeString_value (n : nat) (s : string) (acc : Z) :
  String.length s = (2 * n)%nat ->
  hex_value_acc s acc = (fun b => SetBytes_acc b acc) <$> hex_DecodeString s.
Proof.
  revert s acc. induction n as [|n IH]; intros s acc Hlen.
  - destruct s; [reflexivity | discriminate].
  - destruct s as [|a [|b s]]; try (cbn in Hlen; lia).
    cbn [hex_value_acc hex_DecodeString].
    destruct (hex_val a) as [hi|] eqn:Ea; [|reflexivity].
    destruct (hex_val b) as [lo|] eqn:Eb; [|reflexivity].
    cbn [mbind option_bind]. rewrite (IH s) by (cbn in Hlen; lia).
    apply hex_val_range in Ea, Eb.
    destruct (hex_DecodeString s) as [rest|]; [|reflexivity].
    cbn. do 2 f_equal. rewrite byte_of_Z_val by lia. lia.
Qed.

Lemma padHexLeft_value (s : string) :
  hex_value s = SetBytes <$> hex_DecodeString (padHexLeft s).
Proof.
  unfold hex_value, SetBytes, padHexLeft.
  pose proof (Nat.div_mod_eq (String.length s) 2) as Hk.
  pose proof (Nat.mod_upper_bound (String.length s) 2 ltac:(lia)) as Hb.
  destruct (Nat.eqb_spec (String.length s mod 2) 0) as [E|E].
  - apply (hex_DecodeString_value (String.length s / 2)). lia.
  - rewrite <- (hex_DecodeString_value (S (String.length s / 2)))
      by (cbn [String.length]; lia).
    reflexivity.
Qed.

(** The answer of an RPC endpoint is read as a hexadecimal numeral: digits
    in either case, leading zeros or not, an odd number of digits as well
    as an even one.  The raw balance is the value in decimal and the human
    balance its conversion at six decimals; a payload with a byte that is no
    hexadecimal digit is an error that quotes the payload. *)
Theorem hex_payload_value (result : string) :
  let hexStr := TrimPrefix result "0x" in
  is_empty hexStr = false ->
  hexStr <> "0" ->
  match hex_value hexStr with
  | Some n =>
      exists human,
        atomicToHuman (big_String n) 6 = Ok human /\
        decodeBalance (Envelope result None) = Ok (human, big_String n, None)
  | None =>
      decodeBalance (Envelope result None)
      = Ok (EmptyString, EmptyString, Some ("invalid hex: " +:+ hexStr))
  end.
Proof.
  intros hexStr Hne H0. unfold decodeBalance. fold hexStr. rewrite Hne.
  apply String.eqb_neq in H0. rewrite H0. cbn [orb].
  pose proof (padHexLeft_value hexStr) as Hv.
  destruct (hex_DecodeString (padHexLeft hexStr)) as [b|]; rewrite Hv; cbn.
  - destruct (atomicToHuman_six (SetBytes b)) as [human E].
    { apply SetBytes_acc_nonneg. lia. }
    exists human. now rewrite E.
  - reflexivity.
Qed.

Lemma hex_payload_value_witness :
  decodeBalance (Envelope "0xF4240" None) = Ok ("1.000000", "1000000", None) /\
  decodeBalance (Envelope "0x12g4" None)
  = Ok (EmptyString, EmptyString, Some "invalid hex: 12g4").
Proof.
  split.
  - destruct (hex_payload_value "0xF4240" eq_refl ltac:(discriminate))
      as (human & Hh & Hd).
    rewrite Hd. vm_compute in Hh. injection Hh as <-. reflexivity.
  - exact (hex_payload_value "0x12g4" eq_refl ltac:(discriminate)).
Defined.

Lemma range_singleton (w : world) (name : string) (info : networkInfo) :
  range_visits_all w -> range w {[ name := info ]} = [(name, info)].
Proof.
  intros Hrange. apply Permutation_singleton_r.
  rewrite (Hrange {[ name := info ]}), map_to_list_singleton. reflexivity.
Qed.

(** A query that names a network of the registry asks that network's RPC
    endpoint and no other: one call, one entry, made from the answer of
    that endpoint, and exit code 0 whether the query worked or not. *)
Theorem single_network_query (w : world) (network address : string)
    (info : networkInfo) (jsonOut : bool) :
  range_visits_all w ->
  is_empty (EVM_PRIVATE_KEY w) = false ->
  NewClientSignerFromPrivateKey w (EVM_PRIVATE_KEY w) = inr address ->
  is_empty network = false ->
  networks !! network = Some info ->
  let o := run_wallet w network jsonOut in
  exit_code o = 0 /\
  Balances (locals (final o)) = [network_entry w address (network, info)] /\
  rpc_urls (trace (final o)) = [RPCURL info] /\
  (jsonOut = true ->
     emitted_wallet (trace (final o))
     = [ {| Address := address;
            Balances := [network_entry w address (network, info)];
            WalletError := EmptyString |} ]).
Proof.
  intros Hrange Hkey Hsigner Hnet Hlookup o. subst o.
  unfold run_wallet, runWalletCmd. rewrite Hkey, Hsigner.
  unfold runWallet. rewrite Hnet, Hlookup. run_monad.
  rewrite runWallet_query_run, (range_singleton w network info Hrange).
  cbn [locals trace Balances app fmap list_fmap final exit_code].
  change (NewSigner (EVM_PRIVATE_KEY w) :: ?l)
    with ([NewSigner (EVM_PRIVATE_KEY w)] ++ l)%list.
  unfold emitted_wallet.
  rewrite !rpc_urls_app, !omap_app, rpc_urls_network_events.
  fold (emitted_wallet (loop_events w address jsonOut [(network, info)])).
  rewrite emitted_wallet_network_events.
  destruct jsonOut; repeat split; try discriminate; reflexivity.
Qed.

Lemma single_network_query_witness :
  let o := run_wallet (sample_world "0x01" (sample_response 402 EmptyString EmptyString) "y")
             "base-sepolia" false in
  exit_code o = 0 /\
  rpc_urls (trace (final o)) = ["https://sepolia.base.org"] /\
  Balance <$> Balances (locals (final o)) = ["error"].
Proof.
  pose proof (single_network_query
                (sample_world "0x01" (sample_response 402 EmptyString EmptyString) "y")
                "base-sepolia" "0xe312C88D2102f1eE75aBD221cA9dc72Db406ae4A" _ false
                (sample_range_visits_all _ _ _) eq_refl eq_refl eq_refl eq_refl)
    as (Hexit & Hbal & Hurl & _).
  split; [exact Hexit|]. split; [exact Hurl|].
  cbv zeta. rewrite Hbal. reflexivity.
Defined.

(** The wallet command fails with exit code 1 exactly when the credential
    is missing or the signer library rejects it, and then it makes no RPC
    call and prints no document, in JSON mode as in text mode; in every
    other case, also when the network is unknown or every query fails, it
    ends with exit code 0. *)
Theorem wallet_exit_code (w : world) (network : string) (jsonOut : bool) :
  let o := run_wallet w network jsonOut in
  exit_code o = (if signer_ready w then 0 else 1) /\
  (signer_ready w = false ->
     rpc_urls (trace (final o)) = [] /\
     emitted_wallet (trace (final o)) = [] /\
     existsb is_stderr (trace (final o)) = true).
Proof.
  intros o. subst o. unfold run_wallet, runWalletCmd, signer_ready.
  destruct (is_empty (EVM_PRIVATE_KEY w)); [now run_monad|].
  destruct (NewClientSignerFromPrivateKey w (EVM_PRIVATE_KEY w)) as [err|address];
    [now run_monad|].
  cbn [negb andb]. split; [|discriminate].
  unfold runWallet. destruct (is_empty network).
  { run_monad. now rewrite runWallet_query_run. }
  destruct (networks !! network) as [info|].
  { run_monad. now rewrite runWallet_query_run. }
  now destruct jsonOut.
Qed.

Lemma wallet_exit_code_witness :
  let o := run_wallet (offline_world EmptyString) "base" true in
  exit_code o = 1 /\ emitted_wallet (trace (final o)) = [].
Proof.
  pose proof (wallet_exit_code (offline_world EmptyString) "base" true) as (Hexit & H).
  split; [exact Hexit|]. exact (proj1 (proj2 (H eq_refl))).
Defined.

(** ** The call data *)

#[local] Arguments String.append : simpl nomatch.

Lemma substring_all (s : string) : substring 0 (String.length s) s = s.
Proof. induction s as [|c s IH]; [reflexivity|]. cbn. now rewrite IH. Qed.

Lemma TrimPrefix_0x (s : string) : TrimPrefix ("0x" +:+ s) "0x" = s.
Proof.
  unfold TrimPrefix. cbn. replace (String.length s - 0)%nat with (String.length s) by lia.
  destruct s; [reflexivity|]. cbn. now rewrite substring_all.
Qed.

Lemma length_ToLower (s : string) : String.length (ToLower s) = String.length s.
Proof. induction s as [|c s IH]; [reflexivity|]. cbn. now rewrite IH. Qed.

(** The call data sent for a wallet address of 0x and 40 characters, as
    the signer library prints it (mixed-case checksum): the selector of
    balanceOf(address), then one 32-byte word, 24 zeros and the 40
    characters in lower case; 74 characters in all. *)
Theorem callData_layout (h : string) :
  String.length h = 40%nat ->
  callData ("0x" +:+ h)
  = "0x70a08231" +:+ "000000000000000000000000" +:+ ToLower h /\
  len (callData ("0x" +:+ h)) = 74.
Proof.
  intros Hlen.
  assert (callData ("0x" +:+ h)
          = "0x70a08231" +:+ "000000000000000000000000" +:+ ToLower h) as E.
  { unfold callData. change (ToLower ("0x" +:+ h)) with ("0x" +:+ ToLower h).
    rewrite TrimPrefix_0x. unfold Sprintf_0s. cbn [Z.ltb Z.compare].
    now rewrite length_ToLower, Hlen. }
  split; [exact E|]. rewrite E. unfold len.
  rewrite !length_app, length_ToLower, Hlen. reflexivity.
Qed.

Lemma callData_layout_witness :
  callData "0xe312C88D2102f1eE75aBD221cA9dc72Db406ae4A"
  = "0x70a08231000000000000000000000000e312c88d2102f1ee75abd221ca9dc72db406ae4a".
Proof.
  exact (proj1 (callData_layout "e312C88D2102f1eE75aBD221cA9dc72Db406ae4A" eq_refl)).
Defined.
